(** * PitmanBmi: a leaky-bucket model behind the Basic Model Interface

    Shallow embedding of [src/leakybucket/pitman_bmi.py] and proofs about
    its time-step recurrence and its variable accessors.

    Conventions of the embedding.

    - A Python instance is a record with one optional field per attribute:
      [None] is "attribute not set", and reading it raises [AttributeError].
    - A method is a computation in a state-and-exception monad: it threads
      the store it can mutate and either returns a value or raises.  What
      was assigned before a [raise] stays assigned, as in Python.
    - Arithmetic is IEEE 754 binary64, every operation rounded to nearest
      even, with infinities and [nan].  A number carries, next to its
      binary64 value, whether it is a Python number or a NumPy one: dividing
      a Python number by a Python zero raises [ZeroDivisionError], any
      division with a NumPy operand returns [inf] or [nan] instead.
    - Time stamps are [numpy.datetime64] values in nanoseconds: signed
      64-bit integers whose least value is "not a time", and whose
      difference wraps around.
    - Python [int] attributes ([current_timestep], [end_timestep]) are [Z].
*)

From Stdlib Require Import ZArith Floats String List Lia.
From stdpp Require Import base numbers strings gmap.
Import ListNotations.

Open Scope Z_scope.

(** ** Exceptions and the method monad *)

Inductive exn : Type :=
  | ValueError (msg : string)
  | AttributeError (attr : string)
  | IndexError
  | KeyError (key : string)
  | ZeroDivisionError
  | ExternalError (msg : string).

Inductive result (A : Type) : Type :=
  | Ok (a : A)
  | Raise (e : exn).

Arguments Ok {A} a.
Arguments Raise {A} e.

(** [M σ A]: a computation over a mutable store [σ]. *)
Definition M (σ A : Type) : Type := σ -> σ * result A.

#[global] Instance M_ret σ : MRet (M σ) := fun A a s => (s, Ok a).

#[global] Instance M_bind σ : MBind (M σ) := fun A B k m s =>
  match m s with
  | (s', Ok a) => k a s'
  | (s', Raise e) => (s', Raise e)
  end.

Definition raise {σ A} (e : exn) : M σ A := fun s => (s, Raise e).

Definition lift {σ A} (r : result A) : M σ A := fun s => (s, r).

(** Two ways to speak about a method.  [preserves f m]: [m] leaves the
    observation [f] of the store as it found it, whether it returns or
    raises.  [ensures m s Q]: when [m], started in [s], returns, [Q] holds of
    the final store and the result. *)

Definition preserves {σ A B} (f : σ -> B) (m : M σ A) : Prop :=
  forall s, f (fst (m s)) = f s.

Definition ensures {σ A} (m : M σ A) (s : σ) (Q : σ -> A -> Prop) : Prop :=
  forall s' a, m s = (s', Ok a) -> Q s' a.

(** ** Numbers *)

(** A binary64 value: what a cell of a [float64] array holds. *)
Abbreviation float64 := float.

(** A number as the interpreter sees it: a Python [int] or [float] object,
    or a NumPy float64 (a [numpy.float64] scalar or a zero-dimensional
    array), each with its binary64 value.  A Python [int] stands here by the
    float it converts to in mixed arithmetic; the conversion is exact for
    the [int]s of this class ([0], [24], [3600]). *)
Inductive num : Type :=
  | Py (x : float64)
  | Np (x : float64).

Definition value (a : num) : float64 :=
  match a with
  | Py x => x
  | Np x => x
  end.

Definition is_python (a : num) : bool :=
  match a with
  | Py _ => true
  | Np _ => false
  end.

(** An integer [z] with [|z| < 2^63] converted to binary64, rounded to
    nearest even: C's [(double)] on an [int64] other than its least value,
    Python's [float] on an [int] of that size. *)
Definition float_of_int (z : Z) : float64 :=
  if z <? 0 then (- of_uint63 (Uint63.of_Z (- z)))%float
  else of_uint63 (Uint63.of_Z z).

(** A Python [int] literal used in float arithmetic. *)
Definition int (z : Z) : num := Py (float_of_int z).

(** [a op b] for [+], [-] and [*]: the result is a Python float when both
    operands are Python numbers and a NumPy float64 otherwise.  None of
    these raises: an overflow gives [inf]. *)
Definition binop (op : float64 -> float64 -> float64) (a b : num) : num :=
  match a, b with
  | Py x, Py y => Py (op x y)
  | _, _ => Np (op (value a) (value b))
  end.

Definition add : num -> num -> num := binop PrimFloat.add.
Definition sub : num -> num -> num := binop PrimFloat.sub.
Definition mul : num -> num -> num := binop PrimFloat.mul.

(** The quotient [a / b] delivers when it does not raise. *)
Definition quotient : num -> num -> num := binop PrimFloat.div.

Declare Scope num_scope.
Delimit Scope num_scope with num.
Bind Scope num_scope with num.
Infix "+" := add : num_scope.
Infix "-" := sub : num_scope.
Infix "*" := mul : num_scope.
Infix "/" := quotient : num_scope.

(** [a / b]: Python raises on a zero divisor (of either sign) when both
    operands are Python numbers; with a NumPy operand the division is
    NumPy's and returns [inf] or [nan]. *)
Definition truediv (a b : num) : result num :=
  if is_python a && is_python b && (value b =? 0)%float
  then Raise ZeroDivisionError
  else Ok (a / b)%num.

(** ** Arrays and the forcing data set *)

(** A one-dimensional [float64] array: the [dest] and [src] buffers of the
    accessors. *)
Abbreviation ndarray := (list float64).

(** [a[i]] for a Python [int] index: negative indices count from the end. *)
Definition getitem {A} (a : list A) (i : Z) : result A :=
  let n := Z.of_nat (length a) in
  let j := if i <? 0 then i + n else i in
  if (0 <=? j) && (j <? n)
  then match nth_error a (Z.to_nat j) with
       | Some x => Ok x
       | None => Raise IndexError
       end
  else Raise IndexError.

(** [numpy.datetime64] and [numpy.timedelta64] in nanoseconds: a count in
    a signed 64-bit integer.  The least value, [NaT], is "not a time". *)
Definition NaT : Z := - 2 ^ 63.

(** The 64-bit two's complement value of an integer. *)
Definition wrap64 (z : Z) : Z := (z + 2 ^ 63) mod 2 ^ 64 - 2 ^ 63.

(** [a - b] on two [datetime64] values: [NaT] when either is, and the
    difference of the counts in 64 bits otherwise. *)
Definition datetime64_sub (a b : Z) : Z :=
  if (a =? NaT) || (b =? NaT) then NaT else wrap64 (a - b).

(** [np.timedelta64(1, "s")], counted in nanoseconds. *)
Definition timedelta64_1s : Z := 1000000000.

(** [a / b] on two [timedelta64] values: a NumPy float64, [nan] when either
    is [NaT], and the quotient of the two counts converted to binary64
    otherwise. *)
Definition timedelta64_truediv (a b : Z) : num :=
  if (a =? NaT) || (b =? NaT) then Np nan
  else Np (float_of_int a / float_of_int b).

(** The one-dimensional [xarray.DataArray] returned by [utils.load_var]:
    one entry per point of the ["time"] dimension, holding the time
    coordinate (a [datetime64] in nanoseconds, as xarray decodes the
    standard calendars) and the value at that time, a [float64] once it
    meets the step duration in [update]. *)
Definition DataArray : Type := list (Z * float64).

(** [da["time"]], viewed through [.values]. *)
Definition time_coord (da : DataArray) : list Z := map fst da.

(** [da.isel(time=i).to_numpy()]: a zero-dimensional array. *)
Definition isel (da : DataArray) (i : Z) : result num :=
  match getitem (map snd da) i with
  | Ok x => Ok (Np x)
  | Raise e => Raise e
  end.

(** A configuration value (the [Any] of [dict[str, Any]]). *)
Inductive pyval : Type :=
  | PyStr (s : string)
  | PyNum (q : num).

(** [d[key]] on a [dict]. *)
Definition dict_getitem (d : gmap string pyval) (key : string) : result pyval :=
  match d !! key with
  | Some v => Ok v
  | None => Raise (KeyError key)
  end.

(** ** The instance *)

Record PitmanBmi : Type := {
  config : option (gmap string pyval);
  precipitation : option DataArray;
  time_data : option (list Z);
  timestep_size : option num;
  current_timestep : option Z;
  end_timestep : option Z;
  storage : option num;
  discharge : option num;
  PI : option pyval;
  AI : option pyval;
  ZMIN : option pyval;
  ZMAX : option pyval;
  ST : option pyval;
  SL : option pyval;
  FT : option pyval;
  GW : option pyval;
  R : option pyval;
  POW : option pyval;
  TL : option pyval;
  GL : option pyval;
  leakiness : option num
}.

(** [self.attr] as an expression. *)
Definition getattr {A} (name : string) (attr : PitmanBmi -> option A)
  : M PitmanBmi A :=
  fun self =>
    match attr self with
    | Some v => (self, Ok v)
    | None => (self, Raise (AttributeError name))
    end.

(** [self.attr = v], given the record update for [attr]. *)
Definition setattr (update_attr : PitmanBmi -> PitmanBmi) : M PitmanBmi unit :=
  fun self => (update_attr self, Ok tt).

(** The record updates, one per attribute the class assigns.  There is none
    for [leakiness]. *)
Definition set_config (v : gmap string pyval) (self : PitmanBmi) : PitmanBmi :=
  {| config := Some v; precipitation := self.(precipitation);
     time_data := self.(time_data); timestep_size := self.(timestep_size);
     current_timestep := self.(current_timestep);
     end_timestep := self.(end_timestep); storage := self.(storage);
     discharge := self.(discharge); PI := self.(PI); AI := self.(AI);
     ZMIN := self.(ZMIN); ZMAX := self.(ZMAX); ST := self.(ST);
     SL := self.(SL); FT := self.(FT); GW := self.(GW); R := self.(R);
     POW := self.(POW); TL := self.(TL); GL := self.(GL);
     leakiness := self.(leakiness) |}.

Definition set_precipitation (v : DataArray) (self : PitmanBmi) : PitmanBmi :=
  {| config := self.(config); precipitation := Some v;
     time_data := self.(time_data); timestep_size := self.(timestep_size);
     current_timestep := self.(current_timestep);
     end_timestep := self.(end_timestep); storage := self.(storage);
     discharge := self.(discharge); PI := self.(PI); AI := self.(AI);
     ZMIN := self.(ZMIN); ZMAX := self.(ZMAX); ST := self.(ST);
     SL := self.(SL); FT := self.(FT); GW := self.(GW); R := self.(R);
     POW := self.(POW); TL := self.(TL); GL := self.(GL);
     leakiness := self.(leakiness) |}.

Definition set_time_data (v : list Z) (self : PitmanBmi) : PitmanBmi :=
  {| config := self.(config); precipitation := self.(precipitation);
     time_data := Some v; timestep_size := self.(timestep_size);
     current_timestep := self.(current_timestep);
     end_timestep := self.(end_timestep); storage := self.(storage);
     discharge := self.(discharge); PI := self.(PI); AI := self.(AI);
     ZMIN := self.(ZMIN); ZMAX := self.(ZMAX); ST := self.(ST);
     SL := self.(SL); FT := self.(FT); GW := self.(GW); R := self.(R);
     POW := self.(POW); TL := self.(TL); GL := self.(GL);
     leakiness := self.(leakiness) |}.

Definition set_timestep_size (v : num) (self : PitmanBmi) : PitmanBmi :=
  {| config := self.(config); precipitation := self.(precipitation);
     time_data := self.(time_data); timestep_size := Some v;
     current_timestep := self.(current_timestep);
     end_timestep := self.(end_timestep); storage := self.(storage);
     discharge := self.(discharge); PI := self.(PI); AI := self.(AI);
     ZMIN := self.(ZMIN); ZMAX := self.(ZMAX); ST := self.(ST);
     SL := self.(SL); FT := self.(FT); GW := self.(GW); R := self.(R);
     POW := self.(POW); TL := self.(TL); GL := self.(GL);
     leakiness := self.(leakiness) |}.

Definition set_current_timestep (v : Z) (self : PitmanBmi) : PitmanBmi :=
  {| config := self.(config); precipitation := self.(precipitation);
     time_data := self.(time_data); timestep_size := self.(timestep_size);
     current_timestep := Some v; end_timestep := self.(end_timestep);
     storage := self.(storage); discharge := self.(discharge);
     PI := self.(PI); AI := self.(AI); ZMIN := self.(ZMIN);
     ZMAX := self.(ZMAX); ST := self.(ST); SL := self.(SL); FT := self.(FT);
     GW := self.(GW); R := self.(R); POW := self.(POW); TL := self.(TL);
     GL := self.(GL); leakiness := self.(leakiness) |}.

Definition set_end_timestep (v : Z) (self : PitmanBmi) : PitmanBmi :=
  {| config := self.(config); precipitation := self.(precipitation);
     time_data := self.(time_data); timestep_size := self.(timestep_size);
     current_timestep := self.(current_timestep); end_timestep := Some v;
     storage := self.(storage); discharge := self.(discharge);
     PI := self.(PI); AI := self.(AI); ZMIN := self.(ZMIN);
     ZMAX := self.(ZMAX); ST := self.(ST); SL := self.(SL); FT := self.(FT);
     GW := self.(GW); R := self.(R); POW := self.(POW); TL := self.(TL);
     GL := self.(GL); leakiness := self.(leakiness) |}.

Definition set_storage (v : num) (self : PitmanBmi) : PitmanBmi :=
  {| config := self.(config); precipitation := self.(precipitation);
     time_data := self.(time_data); timestep_size := self.(timestep_size);
     current_timestep := self.(current_timestep);
     end_timestep := self.(end_timestep); storage := Some v;
     discharge := self.(discharge); PI := self.(PI); AI := self.(AI);
     ZMIN := self.(ZMIN); ZMAX := self.(ZMAX); ST := self.(ST);
     SL := self.(SL); FT := self.(FT); GW := self.(GW); R := self.(R);
     POW := self.(POW); TL := self.(TL); GL := self.(GL);
     leakiness := self.(leakiness) |}.

Definition set_discharge (v : num) (self : PitmanBmi) : PitmanBmi :=
  {| config := self.(config); precipitation := self.(precipitation);
     time_data := self.(time_data); timestep_size := self.(timestep_size);
     current_timestep := self.(current_timestep);
     end_timestep := self.(end_timestep); storage := self.(storage);
     discharge := Some v; PI := self.(PI); AI := self.(AI);
     ZMIN := self.(ZMIN); ZMAX := self.(ZMAX); ST := self.(ST);
     SL := self.(SL); FT := self.(FT); GW := self.(GW); R := self.(R);
     POW := self.(POW); TL := self.(TL); GL := self.(GL);
     leakiness := self.(leakiness) |}.

Definition set_PI (v : pyval) (self : PitmanBmi) : PitmanBmi :=
  {| config := self.(config); precipitation := self.(precipitation);
     time_data := self.(time_data); timestep_size := self.(timestep_size);
     current_timestep := self.(current_timestep);
     end_timestep := self.(end_timestep); storage := self.(storage);
     discharge := self.(discharge); PI := Some v; AI := self.(AI);
     ZMIN := self.(ZMIN); ZMAX := self.(ZMAX); ST := self.(ST);
     SL := self.(SL); FT := self.(FT); GW := self.(GW); R := self.(R);
     POW := self.(POW); TL := self.(TL); GL := self.(GL);
     leakiness := self.(leakiness) |}.

Definition set_AI (v : pyval) (self : PitmanBmi) : PitmanBmi :=
  {| config := self.(config); precipitation := self.(precipitation);
     time_data := self.(time_data); timestep_size := self.(timestep_size);
     current_timestep := self.(current_timestep);
     end_timestep := self.(end_timestep); storage := self.(storage);
     discharge := self.(discharge); PI := self.(PI); AI := Some v;
     ZMIN := self.(ZMIN); ZMAX := self.(ZMAX); ST := self.(ST);
     SL := self.(SL); FT := self.(FT); GW := self.(GW); R := self.(R);
     POW := self.(POW); TL := self.(TL); GL := self.(GL);
     leakiness := self.(leakiness) |}.

Definition set_ZMIN (v : pyval) (self : PitmanBmi) : PitmanBmi :=
  {| config := self.(config); precipitation := self.(precipitation);
     time_data := self.(time_data); timestep_size := self.(timestep_size);
     current_timestep := self.(current_timestep);
     end_timestep := self.(end_timestep); storage := self.(storage);
     discharge := self.(discharge); PI := self.(PI); AI := self.(AI);
     ZMIN := Some v; ZMAX := self.(ZMAX); ST := self.(ST); SL := self.(SL);
     FT := self.(FT); GW := self.(GW); R := self.(R); POW := self.(POW);
     TL := self.(TL); GL := self.(GL); leakiness := self.(leakiness) |}.

Definition set_ZMAX (v : pyval) (self : PitmanBmi) : PitmanBmi :=
  {| config := self.(config); precipitation := self.(precipitation);
     time_data := self.(time_data); timestep_size := self.(timestep_size);
     current_timestep := self.(current_timestep);
     end_timestep := self.(end_timestep); storage := self.(storage);
     discharge := self.(discharge); PI := self.(PI); AI := self.(AI);
     ZMIN := self.(ZMIN); ZMAX := Some v; ST := self.(ST); SL := self.(SL);
     FT := self.(FT); GW := self.(GW); R := self.(R); POW := self.(POW);
     TL := self.(TL); GL := self.(GL); leakiness := self.(leakiness) |}.

Definition set_ST (v : pyval) (self : PitmanBmi) : PitmanBmi :=
  {| config := self.(config); precipitation := self.(precipitation);
     time_data := self.(time_data); timestep_size := self.(timestep_size);
     current_timestep := self.(current_timestep);
     end_timestep := self.(end_timestep); storage := self.(storage);
     discharge := self.(discharge); PI := self.(PI); AI := self.(AI);
     ZMIN := self.(ZMIN); ZMAX := self.(ZMAX); ST := Some v; SL := self.(SL);
     FT := self.(FT); GW := self.(GW); R := self.(R); POW := self.(POW);
     TL := self.(TL); GL := self.(GL); leakiness := self.(leakiness) |}.

Definition set_SL (v : pyval) (self : PitmanBmi) : PitmanBmi :=
  {| config := self.(config); precipitation := self.(precipitation);
     time_data := self.(time_data); timestep_size := self.(timestep_size);
     current_timestep := self.(current_timestep);
     end_timestep := self.(end_timestep); storage := self.(storage);
     discharge := self.(discharge); PI := self.(PI); AI := self.(AI);
     ZMIN := self.(ZMIN); ZMAX := self.(ZMAX); ST := self.(ST); SL := Some v;
     FT := self.(FT); GW := self.(GW); R := self.(R); POW := self.(POW);
     TL := self.(TL); GL := self.(GL); leakiness := self.(leakiness) |}.

Definition set_FT (v : pyval) (self : PitmanBmi) : PitmanBmi :=
  {| config := self.(config); precipitation := self.(precipitation);
     time_data := self.(time_data); timestep_size := self.(timestep_size);
     current_timestep := self.(current_timestep);
     end_timestep := self.(end_timestep); storage := self.(storage);
     discharge := self.(discharge); PI := self.(PI); AI := self.(AI);
     ZMIN := self.(ZMIN); ZMAX := self.(ZMAX); ST := self.(ST);
     SL := self.(SL); FT := Some v; GW := self.(GW); R := self.(R);
     POW := self.(POW); TL := self.(TL); GL := self.(GL);
     leakiness := self.(leakiness) |}.

Definition set_GW (v : pyval) (self : PitmanBmi) : PitmanBmi :=
  {| config := self.(config); precipitation := self.(precipitation);
     time_data := self.(time_data); timestep_size := self.(timestep_size);
     current_timestep := self.(current_timestep);
     end_timestep := self.(end_timestep); storage := self.(storage);
     discharge := self.(discharge); PI := self.(PI); AI := self.(AI);
     ZMIN := self.(ZMIN); ZMAX := self.(ZMAX); ST := self.(ST);
     SL := self.(SL); FT := self.(FT); GW := Some v; R := self.(R);
     POW := self.(POW); TL := self.(TL); GL := self.(GL);
     leakiness := self.(leakiness) |}.

Definition set_R (v : pyval) (self : PitmanBmi) : PitmanBmi :=
  {| config := self.(config); precipitation := self.(precipitation);
     time_data := self.(time_data); timestep_size := self.(timestep_size);
     current_timestep := self.(current_timestep);
     end_timestep := self.(end_timestep); storage := self.(storage);
     discharge := self.(discharge); PI := self.(PI); AI := self.(AI);
     ZMIN := self.(ZMIN); ZMAX := self.(ZMAX); ST := self.(ST);
     SL := self.(SL); FT := self.(FT); GW := self.(GW); R := Some v;
     POW := self.(POW); TL := self.(TL); GL := self.(GL);
     leakiness := self.(leakiness) |}.

Definition set_POW (v : pyval) (self : PitmanBmi) : PitmanBmi :=
  {| config := self.(config); precipitation := self.(precipitation);
     time_data := self.(time_data); timestep_size := self.(timestep_size);
     current_timestep := self.(current_timestep);
     end_timestep := self.(end_timestep); storage := self.(storage);
     discharge := self.(discharge); PI := self.(PI); AI := self.(AI);
     ZMIN := self.(ZMIN); ZMAX := self.(ZMAX); ST := self.(ST);
     SL := self.(SL); FT := self.(FT); GW := self.(GW); R := self.(R);
     POW := Some v; TL := self.(TL); GL := self.(GL);
     leakiness := self.(leakiness) |}.

Definition set_TL (v : pyval) (self : PitmanBmi) : PitmanBmi :=
  {| config := self.(config); precipitation := self.(precipitation);
     time_data := self.(time_data); timestep_size := self.(timestep_size);
     current_timestep := self.(current_timestep);
     end_timestep := self.(end_timestep); storage := self.(storage);
     discharge := self.(discharge); PI := self.(PI); AI := self.(AI);
     ZMIN := self.(ZMIN); ZMAX := self.(ZMAX); ST := self.(ST);
     SL := self.(SL); FT := self.(FT); GW := self.(GW); R := self.(R);
     POW := self.(POW); TL := Some v; GL := self.(GL);
     leakiness := self.(leakiness) |}.

Definition set_GL (v : pyval) (self : PitmanBmi) : PitmanBmi :=
  {| config := self.(config); precipitation := self.(precipitation);
     time_data := self.(time_data); timestep_size := self.(timestep_size);
     current_timestep := self.(current_timestep);
     end_timestep := self.(end_timestep); storage := self.(storage);
     discharge := self.(discharge); PI := self.(PI); AI := self.(AI);
     ZMIN := self.(ZMIN); ZMAX := self.(ZMAX); ST := self.(ST);
     SL := self.(SL); FT := self.(FT); GW := self.(GW); R := self.(R);
     POW := self.(POW); TL := self.(TL); GL := Some v;
     leakiness := self.(leakiness) |}.

(** ** The methods of [PitmanBmi] *)

(** [self.config[key]]. *)
Definition config_item (key : string) : M PitmanBmi pyval :=
  cfg ← getattr "config" config;
  lift (dict_getitem cfg key).

Section Initialize.

(** [utils.read_config] and [utils.load_var] belong to another module of
    the package; [initialize] is embedded relative to them. *)
Variable read_config : string -> result (gmap string pyval).
Variable load_var : pyval -> string -> result DataArray.

Definition initialize (config_file : string) : M PitmanBmi unit :=
  cfg ← lift (read_config config_file);
  setattr (set_config cfg);;
  file ← config_item "precipitation_file";
  pr ← lift (load_var file "pr");
  setattr (set_precipitation pr);;
  pr ← getattr "precipitation" precipitation;
  setattr (set_time_data (time_coord pr));;
  td ← getattr "time_data" time_data;
  t1 ← lift (getitem td 1);
  td ← getattr "time_data" time_data;
  t0 ← lift (getitem td 0);
  setattr (set_timestep_size
             (timedelta64_truediv (datetime64_sub t1 t0) timedelta64_1s));;
  setattr (set_current_timestep 0);;
  td ← getattr "time_data" time_data;
  setattr (set_end_timestep (Z.of_nat (length td)));;
  setattr (set_storage (int 0));;
  setattr (set_discharge (int 0));;
  v ← config_item "interception storage";
  setattr (set_PI v);;
  v ← config_item "ratio of impervious to total area";
  setattr (set_AI v);;
  v ← config_item "minimum catchment absorption rate";
  setattr (set_ZMIN v);;
  v ← config_item "maximum catchment absorption rate";
  setattr (set_ZMAX v);;
  v ← config_item "maximum moisture storage capacity";
  setattr (set_ST v);;
  v ← config_item "moisture storage capacity below which no runoff occurs";
  setattr (set_SL v);;
  v ← config_item "runoff from moisture storage at full capacity";
  setattr (set_FT v);;
  v ← config_item "maximum groundwater runoff";
  setattr (set_GW v);;
  v ← config_item "evaporation-moisture storage relationship parameter";
  setattr (set_R v);;
  v ← config_item "power of the moisture storage-runoff equation";
  setattr (set_POW v);;
  v ← config_item "lag for surface and soil moisture";
  setattr (set_TL v);;
  v ← config_item "lag for groundwater runoff";
  setattr (set_GL v).

End Initialize.

Definition update : M PitmanBmi unit :=
  cur ← getattr "current_timestep" current_timestep;
  last ← getattr "end_timestep" end_timestep;
  if cur <? last then
    s ← getattr "storage" storage;
    pr ← getattr "precipitation" precipitation;
    i ← getattr "current_timestep" current_timestep;
    p ← lift (isel pr i);
    dt ← getattr "timestep_size" timestep_size;
    setattr (set_storage (s + p * dt)%num);;
    s ← getattr "storage" storage;
    k ← getattr "leakiness" leakiness;
    setattr (set_discharge (s * k)%num);;
    s ← getattr "storage" storage;
    d ← getattr "discharge" discharge;
    dt ← getattr "timestep_size" timestep_size;
    hours ← lift (truediv dt (int 24));
    days ← lift (truediv hours (int 3600));
    setattr (set_storage (s - d * days)%num);;
    cur ← getattr "current_timestep" current_timestep;
    setattr (set_current_timestep (cur + 1))
  else
    mret tt.

Definition get_component_name : M PitmanBmi string :=
  mret "leakybucket"%string.

(** [get_value] works on two objects: the instance and the caller's [dest]. *)
Definition on_self {A} (m : M PitmanBmi A) : M (PitmanBmi * ndarray) A :=
  fun '(self, dest) => let (self', r) := m self in ((self', dest), r).

(** [dest[:] = np.array(x)] for a scalar [x]: every cell receives the
    binary64 value of [x]. *)
Definition fill (x : num) : M (PitmanBmi * ndarray) unit :=
  fun '(self, dest) => ((self, map (fun _ => value x) dest), Ok tt).

(** [return dest]: the caller gets back the array it passed in. *)
Definition return_dest : M (PitmanBmi * ndarray) ndarray :=
  fun '(self, dest) => ((self, dest), Ok dest).

Definition get_value (var_name : string) : M (PitmanBmi * ndarray) ndarray :=
  if (var_name =? "storage")%string then
    s ← on_self (getattr "storage" storage);
    fill s;;
    return_dest
  else if (var_name =? "discharge")%string then
    d ← on_self (getattr "discharge" discharge);
    dt ← on_self (getattr "timestep_size" timestep_size);
    hours ← lift (truediv dt (int 24));
    days ← lift (truediv hours (int 3600));
    rate ← lift (truediv d days);
    fill rate;;
    return_dest
  else
    raise (ValueError ("Unknown variable " ++ var_name)).

Definition get_var_units (var_name : string) : M PitmanBmi string :=
  if (var_name =? "storage")%string then
    mret "m"%string
  else if (var_name =? "discharge")%string then
    mret "m d-1"%string
  else
    raise (ValueError ("Unknown variable " ++ var_name)).

(** [src[0]] is an element of a [float64] array: a NumPy float64. *)
Definition set_value (var_name : string) (src : ndarray) : M PitmanBmi unit :=
  if (var_name =? "storage")%string then
    v ← lift (getitem src 0);
    setattr (set_storage (Np v))
  else
    raise (ValueError ("Cannot set value of var " ++ var_name)).

Definition get_output_var_names : M PitmanBmi (list string) :=
  mret ["discharge"%string].

(** ** Callers *)

(** A driver that calls [update] [n] times in a row. *)
Fixpoint repeat_update (n : nat) : M PitmanBmi unit :=
  match n with
  | O => mret tt
  | S n' => update;; repeat_update n'
  end.

(** [model.leakiness = k], written by a caller: no method of the class
    assigns this attribute. *)
Definition assign_leakiness (k : num) (self : PitmanBmi) : PitmanBmi :=
  {| config := self.(config); precipitation := self.(precipitation);
     time_data := self.(time_data); timestep_size := self.(timestep_size);
     current_timestep := self.(current_timestep);
     end_timestep := self.(end_timestep); storage := self.(storage);
     discharge := self.(discharge); PI := self.(PI); AI := self.(AI);
     ZMIN := self.(ZMIN); ZMAX := self.(ZMAX); ST := self.(ST);
     SL := self.(SL); FT := self.(FT); GW := self.(GW); R := self.(R);
     POW := self.(POW); TL := self.(TL); GL := self.(GL);
     leakiness := Some k |}.

(** An instance on which nothing has been assigned yet. *)
Definition new_instance : PitmanBmi :=
  {| config := None; precipitation := None; time_data := None;
     timestep_size := None; current_timestep := None; end_timestep := None;
     storage := None; discharge := None; PI := None; AI := None;
     ZMIN := None; ZMAX := None; ST := None; SL := None; FT := None;
     GW := None; R := None; POW := None; TL := None; GL := None;
     leakiness := None |}.

(** The step-index invariant: both indices are set and
    [0 <= current_timestep <= end_timestep]. *)
Definition step_invariant (self : PitmanBmi) : Prop :=
  exists c e : Z,
    current_timestep self = Some c /\ end_timestep self = Some e /\
    0 <= c <= e.

(** ** Notions for the further properties *)

(** [outcome m s Q]: [Q] holds of the store [m] leaves behind and of the
    way it ends, a returned value or a raised exception. *)
Definition outcome {σ A} (m : M σ A) (s : σ) (Q : σ -> result A -> Prop)
  : Prop :=
  Q (fst (m s)) (snd (m s)).

(** The configuration keys [initialize] reads after the forcing is loaded,
    in the order it reads them. *)
Definition pitman_keys : list string :=
  [ "interception storage";
    "ratio of impervious to total area";
    "minimum catchment absorption rate";
    "maximum catchment absorption rate";
    "maximum moisture storage capacity";
    "moisture storage capacity below which no runoff occurs";
    "runoff from moisture storage at full capacity";
    "maximum groundwater runoff";
    "evaporation-moisture storage relationship parameter";
    "power of the moisture storage-runoff equation";
    "lag for surface and soil moisture";
    "lag for groundwater runoff" ]%string.

(** An instance that [update] can step: the attributes [update] reads are
    set, the step index is within its bounds and the forcing series has one
    value per step. *)
Definition runnable (self : PitmanBmi) : Prop :=
  exists (c e : Z) (pr : DataArray) (s dt k : num),
    current_timestep self = Some c /\ end_timestep self = Some e /\
    0 <= c <= e /\
    precipitation self = Some pr /\ e = Z.of_nat (length pr) /\
    storage self = Some s /\ timestep_size self = Some dt /\
    leakiness self = Some k.

(** Two instances that agree on every attribute [update] reads or writes. *)
Definition same_dynamics (a b : PitmanBmi) : Prop :=
  current_timestep a = current_timestep b /\
  end_timestep a = end_timestep b /\
  storage a = storage b /\
  discharge a = discharge b /\
  precipitation a = precipitation b /\
  timestep_size a = timestep_size b /\
  leakiness a = leakiness b.

(** [x] is an infinity or a finite non-zero number, of sign [s] ([true]
    for negative) and, when finite, of an exponent of at least [lo]. *)
Definition at_least (s : bool) (lo : Z) (x : float64) : Prop :=
  match Prim2SF x with
  | S754_infinity s' => s' = s
  | S754_finite s' _ e => s' = s /\ lo <= e
  | _ => False
  end.

(** The value of [self.timestep_size / 24 / 3600] for a step duration [dt]:
    the fraction of a day one step covers. *)
Definition day_fraction (dt : num) : num := (dt / int 24 / int 3600)%num.

(** What one step without precipitation makes of a storage [s]: the
    storage [update] leaves when the forcing value is [0]. *)
Definition dry_step (dt k s : num) : num :=
  (s + Np 0 * dt - (s + Np 0 * dt) * k * day_fraction dt)%num.

(** A method that leaves alone everything [initialize] loaded or derived,
    the leak coefficient included: configuration, forcing, time coordinate,
    step duration, number of steps and the twelve Pitman parameters. *)
Definition keeps_inputs {A} (m : M PitmanBmi A) : Prop :=
  preserves config m /\ preserves precipitation m /\
  preserves time_data m /\ preserves timestep_size m /\
  preserves end_timestep m /\ preserves leakiness m /\
  preserves PI m /\ preserves AI m /\ preserves ZMIN m /\
  preserves ZMAX m /\ preserves ST m /\ preserves SL m /\
  preserves FT m /\ preserves GW m /\ preserves R m /\
  preserves POW m /\ preserves TL m /\ preserves GL m.

(** The step duration [initialize] derives from the first two time stamps,
    in seconds. *)
Definition step_duration (t0 t1 : Z) : num :=
  timedelta64_truediv (datetime64_sub t1 t0) timedelta64_1s.

(** The instance a completed [initialize] leaves behind, attribute by
    attribute. *)
Definition initialized (cfg : gmap string pyval) (pr : DataArray)
    (t0 t1 : Z) (self : PitmanBmi) : PitmanBmi :=
  {| config := Some cfg; precipitation := Some pr;
     time_data := Some (time_coord pr);
     timestep_size := Some (step_duration t0 t1);
     current_timestep := Some 0;
     end_timestep := Some (Z.of_nat (length (time_coord pr)));
     storage := Some (int 0); discharge := Some (int 0);
     PI := cfg !! "interception storage";
     AI := cfg !! "ratio of impervious to total area";
     ZMIN := cfg !! "minimum catchment absorption rate";
     ZMAX := cfg !! "maximum catchment absorption rate";
     ST := cfg !! "maximum moisture storage capacity";
     SL := cfg !! "moisture storage capacity below which no runoff occurs";
     FT := cfg !! "runoff from moisture storage at full capacity";
     GW := cfg !! "maximum groundwater runoff";
     R := cfg !! "evaporation-moisture storage relationship parameter";
     POW := cfg !! "power of the moisture storage-runoff equation";
     TL := cfg !! "lag for surface and soil moisture";
     GL := cfg !! "lag for groundwater runoff";
     leakiness := leakiness self |}.
(** ** A worked run

    Three daily steps, ten units of water on the first day, a leak of one
    tenth per day. *)

Definition demo_config : gmap string pyval :=
  list_to_map
    [ ("precipitation_file", PyStr "pr.nc");
      ("interception storage", PyNum (int 1));
      ("ratio of impervious to total area", PyNum (int 0));
      ("minimum catchment absorption rate", PyNum (int 0));
      ("maximum catchment absorption rate", PyNum (int 100));
      ("maximum moisture storage capacity", PyNum (int 200));
      ("moisture storage capacity below which no runoff occurs", PyNum (int 0));
      ("runoff from moisture storage at full capacity", PyNum (int 10));
      ("maximum groundwater runoff", PyNum (int 5));
      ("evaporation-moisture storage relationship parameter", PyNum (int 1));
      ("power of the moisture storage-runoff equation", PyNum (int 2));
      ("lag for surface and soil moisture", PyNum (int 0));
      ("lag for groundwater runoff", PyNum (int 0)) ]%string.


(** Time stamps one day apart, in nanoseconds since the epoch. *)
Definition demo_forcing : DataArray :=
  [ (0, (10 / 86400)%float);
    (86400000000000, 0%float);
    (172800000000000, 0%float) ].

Definition demo_read_config (config_file : string)
  : result (gmap string pyval) :=
  Ok demo_config.

Definition demo_load_var (file : pyval) (var : string) : result DataArray :=
  Ok demo_forcing.

(** The instance after [initialize], before any caller touched it. *)
Definition demo_initialized : PitmanBmi :=
  fst (initialize demo_read_config demo_load_var "pitman.yaml" new_instance).

(** The same instance once the caller supplied a leak coefficient. *)
Definition demo_model : PitmanBmi :=
  assign_leakiness (Py (1 / 10)) demo_initialized.

(** An instance in the middle of a run, written out attribute by
    attribute: one step done, nine units stored, one unit discharged. *)
Definition demo_running : PitmanBmi :=
  {| config := Some demo_config; precipitation := Some demo_forcing;
     time_data := Some (time_coord demo_forcing);
     timestep_size := Some (Np 86400);
     current_timestep := Some 1; end_timestep := Some 3;
     storage := Some (Np 9); discharge := Some (Np 1);
     PI := Some (PyNum (int 1)); AI := Some (PyNum (int 0));
     ZMIN := Some (PyNum (int 0)); ZMAX := Some (PyNum (int 100));
     ST := Some (PyNum (int 200)); SL := Some (PyNum (int 0));
     FT := Some (PyNum (int 10)); GW := Some (PyNum (int 5));
     R := Some (PyNum (int 1)); POW := Some (PyNum (int 2));
     TL := Some (PyNum (int 0)); GL := Some (PyNum (int 0));
     leakiness := Some (Py (1 / 10)) |}.

(** The instance at the end of its forcing series. *)
Definition demo_finished : PitmanBmi :=
  fst (repeat_update 3 demo_model).

(** A forcing series whose first two time stamps coincide, so that the
    derived step duration is zero. *)
Definition stalled_forcing : DataArray :=
  [ (0, 1%float); (0, 2%float) ].

Definition stalled_load_var (file : pyval) (var : string) : result DataArray :=
  Ok stalled_forcing.

Definition stalled_initialized : PitmanBmi :=
  fst (initialize demo_read_config stalled_load_var "pitman.yaml" new_instance).

(** A forcing series whose first time stamp is missing. *)
Definition undated_forcing : DataArray :=
  [ (NaT, 1%float); (86400000000000, 2%float) ].

Definition undated_load_var (file : pyval) (var : string) : result DataArray :=
  Ok undated_forcing.

Definition undated_initialized : PitmanBmi :=
  fst (initialize demo_read_config undated_load_var "pitman.yaml" new_instance).

(** A forcing series whose first two time stamps lie further apart than a
    64-bit count of nanoseconds can tell: 9e9 seconds before and after the
    epoch. *)
Definition distant_forcing : DataArray :=
  [ (-9000000000000000000, 1%float); (9000000000000000000, 2%float) ].

Definition distant_load_var (file : pyval) (var : string) : result DataArray :=
  Ok distant_forcing.

(** A dry step of seven seconds from one unit of water, with a leak
    coefficient of 6003 per day. *)
Definition seven_seconds : PitmanBmi :=
  {| config := None;
     precipitation := Some [ (0, 0%float); (7000000000, 0%float) ];
     time_data := Some [0; 7000000000];
     timestep_size := Some (Np 7);
     current_timestep := Some 0; end_timestep := Some 2;
     storage := Some (Np 1); discharge := Some (Np 0);
     PI := None; AI := None; ZMIN := None; ZMAX := None; ST := None;
     SL := None; FT := None; GW := None; R := None; POW := None;
     TL := None; GL := None;
     leakiness := Some (Py 6003) |}.



(** ** Proof tools *)

Ltac unfold_monad :=
  unfold mbind, M_bind, mret, M_ret, raise, lift, getattr, setattr,
         on_self, fill, return_dest in *.

Ltac obj_simpl :=
  cbn [config precipitation time_data timestep_size current_timestep
       end_timestep storage discharge PI AI ZMIN ZMAX ST SL FT GW R POW TL GL
       leakiness
       set_config set_precipitation set_time_data set_timestep_size
       set_current_timestep set_end_timestep set_storage set_discharge
       set_PI set_AI set_ZMIN set_ZMAX set_ST set_SL set_FT set_GW set_R
       set_POW set_TL set_GL assign_leakiness fst snd] in *.

(** Dividing by a non-zero [int] literal returns. *)
Lemma truediv_int (x : num) (z : Z) :
  (float_of_int z =? 0)%float = false ->
  truediv x (int z) = Ok (x / int z)%num.
Proof.
  intros Hz. unfold truediv. cbn [value int]. rewrite Hz.
  now rewrite andb_false_r.
Qed.

(** One step of symbolic execution: read an attribute or a collaborator's
    answer from a hypothesis when there is one, split on it otherwise. *)
Ltac exec_step :=
  obj_simpl;
  match goal with
  | |- context [truediv ?x (int 24)] =>
      rewrite (truediv_int x 24 eq_refl)
  | |- context [truediv ?x (int 3600)] =>
      rewrite (truediv_int x 3600 eq_refl)
  | H : ?x = Some _ |- context [match ?x with Some _ => _ | None => _ end] =>
      rewrite H
  | H : ?x = None |- context [match ?x with Some _ => _ | None => _ end] =>
      rewrite H
  | H : ?x = Ok _ |- context [match ?x with Ok _ => _ | Raise _ => _ end] =>
      rewrite H
  | H : ?x = Raise _ |- context [match ?x with Ok _ => _ | Raise _ => _ end] =>
      rewrite H
  | H : ?x = true |- context [if ?x then _ else _] => rewrite H
  | H : ?x = false |- context [if ?x then _ else _] => rewrite H
  | |- context [match ?x with Some _ => _ | None => _ end] =>
      destruct x eqn:?
  | |- context [match ?x with Ok _ => _ | Raise _ => _ end] =>
      destruct x eqn:?
  end.

Ltac exec := repeat exec_step; obj_simpl.


(** ** Binary64 facts *)

Lemma digits2_pos_bounds (p : positive) :
  2 ^ (Zpos (digits2_pos p) - 1) <= Zpos p < 2 ^ Zpos (digits2_pos p).
Proof.
  induction p as [p IH | p IH |]; cbn [digits2_pos].
  - rewrite Pos2Z.inj_succ.
    replace (Z.succ (Zpos (digits2_pos p)) - 1) with (Zpos (digits2_pos p)) by lia.
    rewrite Z.pow_succ_r by lia.
    replace (Zpos (digits2_pos p)) with (Z.succ (Zpos (digits2_pos p) - 1)) at 1 by lia.
    rewrite Z.pow_succ_r by lia. lia.
  - rewrite Pos2Z.inj_succ.
    replace (Z.succ (Zpos (digits2_pos p)) - 1) with (Zpos (digits2_pos p)) by lia.
    rewrite Z.pow_succ_r by lia.
    replace (Zpos (digits2_pos p)) with (Z.succ (Zpos (digits2_pos p) - 1)) at 1 by lia.
    rewrite Z.pow_succ_r by lia. lia.
  - cbn. lia.
Qed.

Lemma shr_1_m (mrs : shr_record) :
  0 <= shr_m mrs -> shr_m (shr_1 mrs) = shr_m mrs / 2.
Proof.
  destruct mrs as [m r s]. cbn [shr_m shr_1].
  destruct m as [| [p | p |] | p]; intros Hm; cbn [shr_m]; try lia.
  - reflexivity.
  - apply Z.div_unique with (r := 1); lia.
  - apply Z.div_unique with (r := 0); lia.
  - reflexivity.
Qed.

Lemma iter_pos_shr_1_m (p : positive) (mrs : shr_record) :
  0 <= shr_m mrs ->
  shr_m (SpecFloat.iter_pos shr_1 p mrs) = shr_m mrs / 2 ^ Zpos p.
Proof.
  revert mrs. induction p as [p IH | p IH |]; intros mrs Hm; cbn [SpecFloat.iter_pos].
  - assert (H1 : 0 <= shr_m (shr_1 mrs))
      by (rewrite shr_1_m by exact Hm; apply Z.div_pos; lia).
    assert (H2 : 0 <= shr_m (SpecFloat.iter_pos shr_1 p (shr_1 mrs)))
      by (rewrite IH by exact H1; apply Z.div_pos; lia).
    rewrite IH by exact H2. rewrite IH by exact H1. rewrite shr_1_m by exact Hm.
    rewrite !Z.div_div by lia.
    f_equal. replace (Zpos p~1) with (1 + Zpos p + Zpos p) by lia.
    rewrite !Z.pow_add_r by lia. change (2 ^ 1) with 2. lia.
  - assert (H2 : 0 <= shr_m (SpecFloat.iter_pos shr_1 p mrs))
      by (rewrite IH by exact Hm; apply Z.div_pos; lia).
    rewrite IH by exact H2. rewrite IH by exact Hm.
    rewrite !Z.div_div by lia.
    f_equal. replace (Zpos p~0) with (Zpos p + Zpos p) by lia.
    rewrite Z.pow_add_r by lia. reflexivity.
  - now rewrite shr_1_m.
Qed.

Lemma shr_m_of_loc (m : Z) (l : location) :
  shr_m (shr_record_of_loc m l) = m.
Proof. destruct l as [| []]; reflexivity. Qed.

(** Rounding a mantissa of at least 53 bits keeps at least 53 bits and does
    not lower the exponent. *)
Lemma shr_fexp_at_least (m e : Z) (l : location) :
  2 ^ 52 <= m -> emin <= e ->
  2 ^ 52 <= shr_m (fst (shr_fexp prec emax m e l)) /\
  e <= snd (shr_fexp prec emax m e l).
Proof.
  intros Hm He. unfold shr_fexp.
  destruct m as [| p | p]; [lia | | lia].
  cbn [Zdigits2].
  pose proof (digits2_pos_bounds p) as [Hlo Hhi].
  set (d := Zpos (digits2_pos p)) in *.
  assert (Hd : 53 <= d).
  { destruct (Z.lt_ge_cases d 53) as [Hlt | Hge]; [| exact Hge].
    assert (2 ^ d <= 2 ^ 52) by (apply Z.pow_le_mono_r; lia). lia. }
  unfold fexp, SpecFloat.emin in *. unfold prec, emax in *.
  replace (Z.max (d + e - 53) (3 - 1024 - 53) - e) with (d - 53) by lia.
  unfold shr.
  destruct (d - 53) as [| n | n] eqn:Hn; cbn [fst snd]; rewrite ?shr_m_of_loc;
    [lia | | lia].
  rewrite iter_pos_shr_1_m by (rewrite shr_m_of_loc; lia).
  rewrite shr_m_of_loc. split; [| lia].
  apply Z.div_le_lower_bound; [lia |].
  rewrite <- Z.pow_add_r by lia.
  replace (Zpos n + 52) with (d - 1) by lia. exact Hlo.
Qed.

Lemma round_nearest_even_ge (m : Z) (l : location) :
  m <= round_nearest_even m l.
Proof.
  unfold round_nearest_even.
  destruct l as [| []]; try lia. destruct (Z.even m); lia.
Qed.

Lemma binary_round_aux_at_least (s : bool) (m e : Z) (l : location) :
  2 ^ 52 <= m -> emin <= e ->
  match binary_round_aux prec emax s m e l with
  | S754_infinity s' => s' = s
  | S754_finite s' _ e' => s' = s /\ e <= e'
  | _ => False
  end.
Proof.
  intros Hm He. unfold binary_round_aux.
  destruct (shr_fexp_at_least m e l Hm He) as [Hm1 He1].
  destruct (shr_fexp prec emax m e l) as [mrs1 e1]. cbn [fst snd] in *.
  pose proof (round_nearest_even_ge (shr_m mrs1) (loc_of_shr_record mrs1))
    as Hround.
  destruct (shr_fexp_at_least
              (round_nearest_even (shr_m mrs1) (loc_of_shr_record mrs1))
              e1 loc_Exact) as [Hm2 He2]; [lia | lia |].
  destruct (shr_fexp prec emax _ e1 loc_Exact) as [mrs2 e2].
  cbn [fst snd] in *.
  destruct (shr_m mrs2) as [| p | p]; [lia | | lia].
  destruct (e2 <=? emax - prec); [split; [reflexivity | lia] | reflexivity].
Qed.

(** A finite float whose exponent is above the least one has a full
    mantissa. *)
Lemma normal_mantissa (x : float64) (s : bool) (m : positive) (e : Z) :
  Prim2SF x = S754_finite s m e -> emin < e ->
  2 ^ 52 <= Zpos m < 2 ^ 53.
Proof.
  intros Hx He.
  pose proof (Prim2SF_valid x) as Hvalid. rewrite Hx in Hvalid.
  cbn [SpecFloat.valid_binary] in Hvalid. unfold bounded in Hvalid.
  apply andb_prop in Hvalid. destruct Hvalid as [Hcanon _].
  unfold canonical_mantissa in Hcanon. apply Z.eqb_eq in Hcanon.
  unfold fexp, SpecFloat.emin, prec, emax in *.
  pose proof (digits2_pos_bounds m) as Hd.
  assert (Hdigits : Zpos (digits2_pos m) = 53) by lia.
  rewrite Hdigits in Hd. exact Hd.
Qed.

(** Dividing by a positive finite number with a full mantissa keeps the
    sign and lowers the exponent by a bounded amount: no underflow while
    the bound stays in range. *)
Lemma div_at_least (x c : float64) (mc : positive) (ec lo : Z) (s : bool) :
  Prim2SF c = S754_finite false mc ec -> emin < ec ->
  emin < lo -> emin <= lo - ec - 53 ->
  at_least s lo x -> at_least s (lo - ec - 53) (x / c)%float.
Proof.
  intros Hc Hec Hlo Hrange Hx. unfold at_least in *.
  rewrite div_spec, Hc.
  destruct (Prim2SF x) as [sx | sx | | sx mx ex] eqn:HSx;
    [contradiction | subst sx; apply xorb_false_r | contradiction |].
  destruct Hx as [-> Hex].
  pose proof (normal_mantissa x s mx ex HSx ltac:(lia)) as Hmx.
  pose proof (normal_mantissa c false mc ec Hc Hec) as Hmc.
  unfold SF64div, SFdiv, SFdiv_core_binary. cbn [Zdigits2].
  pose proof (digits2_pos_bounds mx) as Hdx.
  pose proof (digits2_pos_bounds mc) as Hdc.
  assert (Hdigx : Zpos (digits2_pos mx) = 53).
  { destruct (Z.lt_trichotomy (Zpos (digits2_pos mx)) 53)
      as [Hlt | [Heq | Hgt]]; [| exact Heq |].
    - assert (2 ^ Zpos (digits2_pos mx) <= 2 ^ 52)
        by (apply Z.pow_le_mono_r; lia). lia.
    - assert (2 ^ 53 <= 2 ^ (Zpos (digits2_pos mx) - 1))
        by (apply Z.pow_le_mono_r; lia). lia. }
  assert (Hdigc : Zpos (digits2_pos mc) = 53).
  { destruct (Z.lt_trichotomy (Zpos (digits2_pos mc)) 53)
      as [Hlt | [Heq | Hgt]]; [| exact Heq |].
    - assert (2 ^ Zpos (digits2_pos mc) <= 2 ^ 52)
        by (apply Z.pow_le_mono_r; lia). lia.
    - assert (2 ^ 53 <= 2 ^ (Zpos (digits2_pos mc) - 1))
        by (apply Z.pow_le_mono_r; lia). lia. }
  rewrite Hdigx, Hdigc.
  unfold fexp, SpecFloat.emin, prec, emax in *.
  replace (Z.min (Z.max (53 + ex - (53 + ec) - 53) (3 - 1024 - 53)) (ex - ec))
    with (ex - ec - 53) by lia.
  replace (ex - ec - (ex - ec - 53)) with 53 by lia.
  rewrite Z.shiftl_mul_pow2 by lia.
  pose proof (Z_div_mod_full (Zpos mx * 2 ^ 53) (Zpos mc) ltac:(lia)) as Hdiv.
  destruct (Z.div_eucl (Zpos mx * 2 ^ 53) (Zpos mc)) as [q r].
  destruct Hdiv as [Hq Hr].
  assert (Hq52 : 2 ^ 52 <= q).
  { destruct Hr as [Hr | Hr]; [| lia].
    assert (2 ^ 52 * 2 ^ 53 <= Zpos mx * 2 ^ 53) by nia.
    nia. }
  pose proof (binary_round_aux_at_least (xorb s false) q (ex - ec - 53)
                (new_location (Zpos mc) r) Hq52) as Hround.
  unfold SpecFloat.emin, prec, emax in Hround.
  specialize (Hround ltac:(lia)).
  rewrite xorb_false_r in *.
  destruct (binary_round_aux 53 1024 s q (ex - ec - 53)
              (new_location (Zpos mc) r)); try contradiction;
    [exact Hround | split; [apply Hround | lia]].
Qed.

(** A non-zero integer within the signed 64-bit range converts to a float
    of its sign and of magnitude at least one. *)
Lemma float_of_int_at_least (z : Z) :
  z <> 0 -> - 2 ^ 63 < z < 2 ^ 63 ->
  at_least (z <? 0) (-52) (float_of_int z).
Proof.
  intros Hz Hrange.
  assert (Hpos : forall p : positive,
             Zpos p < 2 ^ 63 ->
             at_least false (-52) (of_uint63 (Uint63.of_Z (Zpos p)))).
  { intros p Hp. unfold at_least.
    rewrite of_uint63_spec, Uint63.of_Z_spec.
    rewrite Z.mod_small by (change Uint63.wB with (2 ^ 63); lia).
    cbn [binary_normalize]. unfold binary_round.
    pose proof (digits2_pos_bounds p) as [Hlo Hhi].
    set (d := Zpos (digits2_pos p)) in *.
    assert (Hd : 1 <= d) by (unfold d; lia).
    unfold fexp, SpecFloat.emin, prec, emax, shl_align.
    replace (Z.max (d + 0 - 53) (3 - 1024 - 53) - 0) with (d - 53) by lia.
    replace (Z.max (d + 0 - 53) (3 - 1024 - 53)) with (d - 53) by lia.
    destruct (d - 53) as [| n | n] eqn:Hn.
    - pose proof (binary_round_aux_at_least false (Zpos p) 0 loc_Exact)
        as Hround.
      unfold SpecFloat.emin, prec, emax in Hround.
      assert (2 ^ 52 <= Zpos p) by (replace 52 with (d - 1) by lia; exact Hlo).
      specialize (Hround ltac:(lia) ltac:(lia)).
      destruct (binary_round_aux 53 1024 false (Zpos p) 0 loc_Exact);
        try contradiction; [exact Hround | split; [apply Hround | lia]].
    - pose proof (binary_round_aux_at_least false (Zpos p) 0 loc_Exact)
        as Hround.
      unfold SpecFloat.emin, prec, emax in Hround.
      assert (2 ^ 52 <= Zpos p).
      { assert (2 ^ 52 <= 2 ^ (d - 1)) by (apply Z.pow_le_mono_r; lia). lia. }
      specialize (Hround ltac:(lia) ltac:(lia)).
      destruct (binary_round_aux 53 1024 false (Zpos p) 0 loc_Exact);
        try contradiction; [exact Hround | split; [apply Hround | lia]].
    - pose proof (binary_round_aux_at_least false
                    (Zpos (Pos.iter xO p n)) (Zneg n) loc_Exact) as Hround.
      unfold SpecFloat.emin, prec, emax in Hround.
      assert (Hshift : Zpos (Pos.iter xO p n) = Zpos p * 2 ^ Zpos n).
      { change (Pos.iter xO p n) with (shift_pos n p).
        rewrite Zpower.shift_pos_correct, Z.pow_pos_fold. lia. }
      assert (2 ^ 52 <= Zpos (Pos.iter xO p n)).
      { rewrite Hshift.
        assert (2 ^ (d - 1) * 2 ^ Zpos n = 2 ^ 52).
        { rewrite <- Z.pow_add_r by lia. f_equal. lia. }
        nia. }
      specialize (Hround ltac:(lia) ltac:(lia)).
      destruct (binary_round_aux 53 1024 false (Zpos (Pos.iter xO p n))
                  (Zneg n) loc_Exact);
        try contradiction; [exact Hround | split; [apply Hround | lia]]. }
  unfold float_of_int.
  destruct z as [| p | p]; [lia | |].
  - change (Zpos p <? 0) with false. cbv iota. apply Hpos. lia.
  - change (Zneg p <? 0) with true. cbv iota.
    change (- Zneg p) with (Zpos p).
    specialize (Hpos p ltac:(lia)). unfold at_least in *.
    rewrite opp_spec.
    destruct (Prim2SF (of_uint63 (Uint63.of_Z (Zpos p)))); cbn [SFopp];
      try contradiction; [now subst | destruct Hpos as [-> Hpos]; now split].
Qed.

(** Such a number is below zero exactly when its sign is negative. *)
Lemma at_least_ltb (s : bool) (lo : Z) (x : float64) :
  at_least s lo x -> (x <? 0)%float = s.
Proof.
  unfold at_least. intros Hx. rewrite ltb_spec.
  change (Prim2SF 0) with (S754_zero false).
  destruct (Prim2SF x) as [sx | sx | | sx mx ex]; try contradiction.
  - subst sx. now destruct s.
  - destruct Hx as [-> _]. now destruct s.
Qed.

(** Zero divided by an infinity or by a finite non-zero number is a zero of
    the sign of the divisor. *)
Lemma zero_div_at_least (s : bool) (lo : Z) (y : float64) :
  at_least s lo y -> (0 / y)%float = if s then (-0)%float else 0%float.
Proof.
  unfold at_least. intros Hy. apply Prim2SF_inj.
  rewrite div_spec.
  change (Prim2SF 0) with (S754_zero false).
  destruct (Prim2SF y) as [sy | sy | | sy my ey]; try contradiction.
  - subst sy. now destruct s.
  - destruct Hy as [-> _]. now destruct s.
Qed.

(** ** The time step *)

(** One completed step, as the sequence of assignments [update] makes. *)
Lemma update_step (self : PitmanBmi) (c e : Z) (pr : DataArray)
    (s p k dt : num) :
  current_timestep self = Some c -> end_timestep self = Some e -> c < e ->
  storage self = Some s -> precipitation self = Some pr -> isel pr c = Ok p ->
  leakiness self = Some k -> timestep_size self = Some dt ->
  update self =
    (set_current_timestep (c + 1)
       (set_storage
          (s + p * dt - (s + p * dt) * k * day_fraction dt)%num
          (set_discharge ((s + p * dt) * k)%num
             (set_storage (s + p * dt)%num self))),
     Ok tt).
Proof.
  intros Hc He Hlt Hs Hpr Hp Hk Hdt.
  apply Z.ltb_lt in Hlt.
  unfold update. unfold_monad. exec. reflexivity.
Qed.

(** Past the end of the series [update] does nothing. *)
Lemma update_past_end (self : PitmanBmi) (c e : Z) :
  current_timestep self = Some c -> end_timestep self = Some e -> e <= c ->
  update self = (self, Ok tt).
Proof.
  intros Hc He Hle.
  apply Z.ltb_ge in Hle.
  unfold update. unfold_monad.
  rewrite Hc, He, Hle. reflexivity.
Qed.

(** Whatever the outcome of [update], [end_timestep] stays and
    [current_timestep] moves by one exactly when a step completes. *)
Lemma update_indices (self : PitmanBmi) (c e : Z) :
  current_timestep self = Some c -> end_timestep self = Some e ->
  end_timestep (fst (update self)) = Some e /\
  current_timestep (fst (update self)) =
    Some (match snd (update self) with
          | Ok _ => if c <? e then c + 1 else c
          | Raise _ => c
          end).
Proof.
  intros Hc He.
  unfold update. unfold_monad.
  destruct (c <? e) eqn:Hlt; exec; auto.
Qed.

(** [update] leaves the step indices within their bounds. *)
Lemma update_step_invariant (self : PitmanBmi) :
  step_invariant self -> step_invariant (fst (update self)).
Proof.
  intros (c & e & Hc & He & Hb).
  destruct (update_indices self c e Hc He) as [He' Hc'].
  eexists _, e. split; [exact Hc' |]. split; [exact He' |].
  destruct (snd (update self)); [| lia].
  destruct (Z.ltb_spec c e); lia.
Qed.

Lemma repeat_update_past_end (self : PitmanBmi) (c e : Z) (n : nat) :
  current_timestep self = Some c -> end_timestep self = Some e -> e <= c ->
  repeat_update n self = (self, Ok tt).
Proof.
  intros Hc He Hle.
  induction n as [| n IH]; [reflexivity |].
  cbn [repeat_update]. unfold mbind, M_bind.
  rewrite (update_past_end self c e Hc He Hle). exact IH.
Qed.

(** The worked run, step by step: the index moves to 1, 2, 3 and stays
    there at the fourth call, which changes nothing.  The storage is 9
    after the first step and, rounding included, just below 7.29 after the
    third. *)
Example demo_run :
  map (fun n => current_timestep (fst (repeat_update n demo_model)))
      [1; 2; 3; 4]%nat =
    [Some 1; Some 2; Some 3; Some 3] /\
  repeat_update 4 demo_model = repeat_update 3 demo_model /\
  storage (fst (repeat_update 1 demo_model)) = Some (Np 9) /\
  exists s3 : float64,
    storage (fst (repeat_update 3 demo_model)) = Some (Np s3) /\
    (s3 <? 729 / 100)%float = true.
Proof.
  split; [vm_compute; reflexivity |]. split; [vm_compute; reflexivity |].
  split; [vm_compute; reflexivity |].
  eexists. split; vm_compute; reflexivity.
Qed.

(** ** The accessors *)

(** [get_value] as one case distinction. *)
Lemma get_value_cases (name : string) (self : PitmanBmi) (dest : ndarray) :
  get_value name (self, dest) =
  if (name =? "storage")%string then
    match storage self with
    | Some s =>
        ((self, map (fun _ => value s) dest),
         Ok (map (fun _ => value s) dest))
    | None => ((self, dest), Raise (AttributeError "storage"))
    end
  else if (name =? "discharge")%string then
    match discharge self with
    | Some d =>
        match timestep_size self with
        | Some dt =>
            match truediv d (day_fraction dt) with
            | Ok rate =>
                ((self, map (fun _ => value rate) dest),
                 Ok (map (fun _ => value rate) dest))
            | Raise err => ((self, dest), Raise err)
            end
        | None => ((self, dest), Raise (AttributeError "timestep_size"))
        end
    | None => ((self, dest), Raise (AttributeError "discharge"))
    end
  else ((self, dest), Raise (ValueError ("Unknown variable " ++ name))).
Proof.
  unfold get_value.
  destruct (name =? "storage")%string.
  - unfold_monad. now destruct (storage self).
  - destruct (name =? "discharge")%string; [| reflexivity].
    unfold_monad. destruct (discharge self) as [d |]; [| reflexivity].
    destruct (timestep_size self) as [dt |]; [| reflexivity].
    rewrite (truediv_int dt 24 eq_refl), (truediv_int _ 3600 eq_refl).
    unfold day_fraction. now destruct (truediv d _).
Qed.

Lemma get_value_storage (self : PitmanBmi) (dest : ndarray) (s : num) :
  storage self = Some s ->
  get_value "storage" (self, dest) =
    ((self, map (fun _ => value s) dest), Ok (map (fun _ => value s) dest)).
Proof.
  intros Hs. rewrite get_value_cases, Hs. reflexivity.
Qed.

(** [get_value "discharge"] on an instance that holds a discharge and a
    step duration: Python's division raises when both are Python numbers
    and the day fraction is a zero; otherwise every cell of [dest] receives
    the quotient. *)
Lemma get_value_discharge (self : PitmanBmi) (dest : ndarray) (d dt : num) :
  discharge self = Some d -> timestep_size self = Some dt ->
  get_value "discharge" (self, dest) =
    if is_python d && is_python dt && (value (day_fraction dt) =? 0)%float
    then ((self, dest), Raise ZeroDivisionError)
    else ((self, map (fun _ => value (d / day_fraction dt)%num) dest),
          Ok (map (fun _ => value (d / day_fraction dt)%num) dest)).
Proof.
  intros Hd Hdt. rewrite get_value_cases, Hd, Hdt.
  cbn [String.eqb Ascii.eqb Bool.eqb]. unfold truediv.
  replace (is_python (day_fraction dt)) with (is_python dt)
    by (now destruct dt).
  now destruct (is_python d && is_python dt
                && (value (day_fraction dt) =? 0)%float).
Qed.

(** With a NumPy operand the division never raises. *)
Lemma get_value_discharge_numpy (self : PitmanBmi) (dest : ndarray)
    (d dt : num) :
  discharge self = Some d -> timestep_size self = Some dt ->
  is_python d && is_python dt = false ->
  get_value "discharge" (self, dest) =
    ((self, map (fun _ => value (d / day_fraction dt)%num) dest),
     Ok (map (fun _ => value (d / day_fraction dt)%num) dest)).
Proof.
  intros Hd Hdt Hnp.
  rewrite (get_value_discharge self dest d dt Hd Hdt), Hnp. reflexivity.
Qed.

Lemma get_value_unknown (name : string) (self : PitmanBmi) (dest : ndarray) :
  name <> "storage"%string -> name <> "discharge"%string ->
  get_value name (self, dest) =
    ((self, dest), Raise (ValueError ("Unknown variable " ++ name))).
Proof.
  intros Hs Hd. unfold get_value.
  apply String.eqb_neq in Hs, Hd. now rewrite Hs, Hd.
Qed.


(** [get_value] never assigns an attribute, whatever its outcome. *)
Lemma get_value_self (name : string) (self : PitmanBmi) (dest : ndarray) :
  fst (fst (get_value name (self, dest))) = self.
Proof.
  rewrite get_value_cases.
  destruct (name =? "storage")%string.
  - now destruct (storage self).
  - destruct (name =? "discharge")%string; [| reflexivity].
    destruct (discharge self); [| reflexivity].
    destruct (timestep_size self); [| reflexivity].
    now destruct (truediv _ _).
Qed.

Lemma get_var_units_unknown (name : string) (self : PitmanBmi) :
  name <> "storage"%string -> name <> "discharge"%string ->
  get_var_units name self =
    (self, Raise (ValueError ("Unknown variable " ++ name))).
Proof.
  intros Hs Hd. unfold get_var_units.
  apply String.eqb_neq in Hs, Hd. now rewrite Hs, Hd.
Qed.

Lemma get_var_units_self (name : string) (self : PitmanBmi) :
  fst (get_var_units name self) = self.
Proof.
  unfold get_var_units.
  destruct (name =? "storage")%string; [reflexivity |].
  now destruct (name =? "discharge")%string.
Qed.

Lemma set_value_storage (self : PitmanBmi) (v : float64) (rest : ndarray) :
  set_value "storage" (v :: rest) self = (set_storage (Np v) self, Ok tt).
Proof. reflexivity. Qed.

Lemma set_value_other (name : string) (src : ndarray) (self : PitmanBmi) :
  name <> "storage"%string ->
  set_value name src self =
    (self, Raise (ValueError ("Cannot set value of var " ++ name))).
Proof.
  intros Hs. unfold set_value.
  apply String.eqb_neq in Hs. now rewrite Hs.
Qed.

(** [set_value] never assigns a step index, whatever its outcome. *)
Lemma set_value_indices (name : string) (src : ndarray) (self : PitmanBmi) :
  current_timestep (fst (set_value name src self)) = current_timestep self /\
  end_timestep (fst (set_value name src self)) = end_timestep self.
Proof.
  unfold set_value.
  destruct (name =? "storage")%string; [| now split].
  unfold_monad. now destruct (getitem src 0).
Qed.

(** ** Indexing *)

Lemma getitem_Ok_bound {A} (a : list A) (i : Z) (x : A) :
  0 <= i -> getitem a i = Ok x -> i < Z.of_nat (length a).
Proof.
  intros Hi. unfold getitem.
  destruct (Z.ltb_spec i 0) as [Hneg | _]; [lia |].
  destruct (Z.leb_spec 0 i) as [_ | Hneg]; [| lia].
  destruct (Z.ltb_spec i (Z.of_nat (length a))) as [Hlt | _]; [| discriminate].
  intros _. exact Hlt.
Qed.

Lemma getitem_in_bounds {A} (a : list A) (i : Z) :
  0 <= i < Z.of_nat (length a) -> exists x, getitem a i = Ok x.
Proof.
  intros [Hi Hlt]. unfold getitem.
  destruct (Z.ltb_spec i 0) as [Hneg | _]; [lia |].
  destruct (Z.leb_spec 0 i) as [_ | Hneg]; [| lia].
  destruct (Z.ltb_spec i (Z.of_nat (length a))) as [_ | Hge]; [| lia].
  cbn [andb].
  destruct (nth_error a (Z.to_nat i)) as [x |] eqn:Hnth; [now exists x |].
  apply nth_error_None in Hnth. lia.
Qed.

(** ** Reasoning rules for the method monad *)

Lemma preserves_ret {σ A B} (f : σ -> B) (a : A) : preserves f (mret a).
Proof. intros s. reflexivity. Qed.

Lemma preserves_lift {σ A B} (f : σ -> B) (r : result A) :
  preserves f (lift r).
Proof. intros s. reflexivity. Qed.

Lemma preserves_bind {σ A B C} (f : σ -> C) (m : M σ A) (k : A -> M σ B) :
  preserves f m -> (forall a, preserves f (k a)) -> preserves f (m ≫= k).
Proof.
  intros Hm Hk s. unfold mbind, M_bind.
  specialize (Hm s). destruct (m s) as [s1 [a | e]]; cbn [fst] in *.
  - now rewrite Hk.
  - exact Hm.
Qed.

Lemma preserves_getattr {A B} (f : PitmanBmi -> B) (name : string)
    (attr : PitmanBmi -> option A) :
  preserves f (getattr name attr).
Proof. intros s. unfold getattr. now destruct (attr s). Qed.

Lemma preserves_setattr {B} (f : PitmanBmi -> B)
    (update_attr : PitmanBmi -> PitmanBmi) :
  (forall s, f (update_attr s) = f s) -> preserves f (setattr update_attr).
Proof. intros H s. apply H. Qed.

Lemma ensures_ret {σ A} (a : A) (s : σ) (Q : σ -> A -> Prop) :
  Q s a -> ensures (mret a) s Q.
Proof. intros H s' a' [= <- <-]. exact H. Qed.

Lemma ensures_lift {σ A} (r : result A) (s : σ) (Q : σ -> A -> Prop) :
  (forall a, r = Ok a -> Q s a) -> ensures (lift r) s Q.
Proof. intros H s' a [= <- ->]. now apply H. Qed.

Lemma ensures_bind {σ A B} (m : M σ A) (k : A -> M σ B) (s : σ)
    (Q : σ -> B -> Prop) :
  ensures m s (fun s1 a => ensures (k a) s1 Q) -> ensures (m ≫= k) s Q.
Proof.
  intros H s' b. unfold mbind, M_bind.
  destruct (m s) as [s1 [a | e]] eqn:Hm; [| discriminate].
  apply (H s1 a Hm).
Qed.

Lemma ensures_getattr {A} (name : string) (attr : PitmanBmi -> option A)
    (s : PitmanBmi) (Q : PitmanBmi -> A -> Prop) :
  (forall v, attr s = Some v -> Q s v) -> ensures (getattr name attr) s Q.
Proof.
  intros H s' a. unfold getattr.
  destruct (attr s) as [v |] eqn:Hv; [| discriminate].
  intros [= <- <-]. now apply H.
Qed.

Lemma ensures_setattr (update_attr : PitmanBmi -> PitmanBmi) (s : PitmanBmi)
    (Q : PitmanBmi -> unit -> Prop) :
  Q (update_attr s) tt -> ensures (setattr update_attr) s Q.
Proof. intros H s' a [= <- <-]. exact H. Qed.

Ltac preserves_step :=
  first [ apply preserves_bind; [| intros ?]
        | apply preserves_lift
        | apply preserves_getattr
        | apply preserves_setattr; intros ?; reflexivity
        | apply preserves_ret ].

Ltac ensures_step :=
  cbv beta;
  first [ apply ensures_bind
        | apply ensures_setattr
        | apply ensures_getattr;
          let v := fresh "v" in
          let Hv := fresh "Hv" in
          intros v Hv;
          cbn [config precipitation time_data timestep_size current_timestep
               end_timestep storage discharge leakiness
               set_config set_precipitation set_time_data set_timestep_size
               set_current_timestep set_end_timestep set_storage
               set_discharge set_PI set_AI set_ZMIN set_ZMAX set_ST set_SL
               set_FT set_GW set_R set_POW set_TL set_GL] in Hv;
          try (injection Hv as <-)
        | apply ensures_lift; intros ? ? ].

(** ** Initialization *)


(** [initialize] never assigns [leakiness], whatever its outcome. *)
Lemma initialize_leakiness
    (read_config : string -> result (gmap string pyval))
    (load_var : pyval -> string -> result DataArray)
    (config_file : string) :
  preserves leakiness (initialize read_config load_var config_file).
Proof.
  unfold initialize, config_item. repeat preserves_step.
Qed.


(** What a completed [initialize] leaves in the instance. *)
Lemma initialize_Ok
    (read_config : string -> result (gmap string pyval))
    (load_var : pyval -> string -> result DataArray)
    (config_file : string) (self : PitmanBmi) :
  ensures (initialize read_config load_var config_file) self
    (fun self' _ =>
       exists (pr : DataArray) (t0 t1 : Z),
         getitem (time_coord pr) 0 = Ok t0 /\
         getitem (time_coord pr) 1 = Ok t1 /\
         precipitation self' = Some pr /\
         timestep_size self' = Some (step_duration t0 t1) /\
         current_timestep self' = Some 0 /\
         end_timestep self' = Some (Z.of_nat (length (time_coord pr))) /\
         storage self' = Some (int 0) /\
         discharge self' = Some (int 0)).
Proof.
  unfold initialize, config_item. repeat ensures_step.
  cbv beta. eexists _, _, _.
  split; [eassumption |]. split; [eassumption |].
  repeat split.
Qed.


(** [update] on an instance that has everything but a leak coefficient:
    the precipitation is already added to the storage when the read of
    [leakiness] raises. *)
Lemma update_without_leakiness (self : PitmanBmi) (c e : Z) (pr : DataArray)
    (s p dt : num) :
  current_timestep self = Some c -> end_timestep self = Some e -> c < e ->
  storage self = Some s -> precipitation self = Some pr -> isel pr c = Ok p ->
  timestep_size self = Some dt -> leakiness self = None ->
  update self =
    (set_storage (s + p * dt)%num self, Raise (AttributeError "leakiness")).
Proof.
  intros Hc He Hlt Hs Hpr Hp Hdt Hk.
  apply Z.ltb_lt in Hlt.
  unfold update. unfold_monad. exec. reflexivity.
Qed.

(** ** The derived step duration *)

Lemma wrap64_range (z : Z) : - 2 ^ 63 <= wrap64 z < 2 ^ 63.
Proof.
  unfold wrap64.
  pose proof (Z.mod_pos_bound (z + 2 ^ 63) (2 ^ 64) ltac:(lia)). lia.
Qed.

Lemma datetime64_sub_range (a b : Z) :
  - 2 ^ 63 <= datetime64_sub a b < 2 ^ 63.
Proof.
  unfold datetime64_sub.
  destruct ((a =? NaT) || (b =? NaT)); [unfold NaT; lia | apply wrap64_range].
Qed.

Lemma value_quotient (a b : num) :
  value (a / b)%num = (value a / value b)%float.
Proof. now destruct a, b. Qed.

(** The step duration is a NumPy number. *)
Lemma step_duration_numpy (t0 t1 : Z) : is_python (step_duration t0 t1) = false.
Proof.
  unfold step_duration, timedelta64_truediv.
  now destruct ((datetime64_sub t1 t0 =? NaT) || (timedelta64_1s =? NaT)).
Qed.

(** The step duration spelled out: [nan] when a time stamp is missing or
    the difference wraps onto [NaT], and the wrapped difference in
    nanoseconds divided by [1e9] otherwise. *)
Lemma step_duration_cases (t0 t1 : Z) :
  step_duration t0 t1 =
    if (t1 =? NaT) || (t0 =? NaT) || (wrap64 (t1 - t0) =? NaT)
    then Np nan
    else Np (float_of_int (wrap64 (t1 - t0)) / float_of_int 1000000000).
Proof.
  unfold step_duration, timedelta64_truediv, datetime64_sub.
  change (timedelta64_1s =? NaT) with false. rewrite orb_false_r.
  destruct ((t1 =? NaT) || (t0 =? NaT)); [reflexivity |].
  cbn [orb]. reflexivity.
Qed.

(** A step duration that is a number other than zero is at least a
    nanosecond long, and the day fraction taken from it has its sign and
    does not underflow to zero. *)
Lemma step_duration_day_fraction (t0 t1 : Z) :
  (value (step_duration t0 t1) =? 0)%float = false ->
  is_nan (value (step_duration t0 t1)) = false ->
  at_least (value (step_duration t0 t1) <? 0)%float (-99)
    (value (day_fraction (step_duration t0 t1))).
Proof.
  unfold step_duration, timedelta64_truediv.
  pose proof (datetime64_sub_range t1 t0) as Hrange.
  set (a := datetime64_sub t1 t0) in *.
  change (timedelta64_1s =? NaT) with false. rewrite orb_false_r.
  destruct (Z.eqb_spec a NaT) as [HNaT | HNaT]; cbn [value].
  - intros _ Hnan. discriminate Hnan.
  - intros Hnz _.
    assert (Ha : a <> 0).
    { intros H0. rewrite H0 in Hnz. vm_compute in Hnz. discriminate Hnz. }
    unfold day_fraction. rewrite !value_quotient. cbn [value int].
    pose proof (float_of_int_at_least a Ha ltac:(unfold NaT in *; lia)) as H1.
    apply (div_at_least _ (float_of_int timedelta64_1s)
             8388608000000000 (-23) (-52)) in H1;
      [| vm_compute; reflexivity | reflexivity | reflexivity
       | vm_compute; discriminate].
    rewrite (at_least_ltb _ _ _ H1).
    apply (div_at_least _ (float_of_int 24)
             6755399441055744 (-48) (-82)) in H1;
      [| vm_compute; reflexivity | reflexivity | reflexivity
       | vm_compute; discriminate].
    apply (div_at_least _ (float_of_int 3600)
             7916483719987200 (-41) (-87)) in H1;
      [| vm_compute; reflexivity | reflexivity | reflexivity
       | vm_compute; discriminate].
    exact H1.
Qed.

(** * Properties of the specification *)




(** C2.  On an instance with [current_timestep >= end_timestep], [update]
    returns normally and changes no attribute; so does any number of
    further calls. *)
Theorem C2_update_past_end_is_noop (self : PitmanBmi) (c e : Z) (n : nat) :
  current_timestep self = Some c -> end_timestep self = Some e -> e <= c ->
  update self = (self, Ok tt) /\ repeat_update n self = (self, Ok tt).
Proof.
  intros Hc He Hle. split.
  - exact (update_past_end self c e Hc He Hle).
  - exact (repeat_update_past_end self c e n Hc He Hle).
Qed.

Lemma C2_witness :
  update demo_finished = (demo_finished, Ok tt) /\
  repeat_update 5 demo_finished = (demo_finished, Ok tt).
Proof.
  apply (C2_update_past_end_is_noop demo_finished 3 3 5);
    [vm_compute; reflexivity | vm_compute; reflexivity | lia].
Defined.





(** C4.  For a name other than ["storage"] and ["discharge"], [get_value]
    and [get_var_units] raise [ValueError "Unknown variable <name>"] and
    leave the instance and the caller's [dest] as they were. *)
Theorem C4_unknown_variable_rejected (name : string) (self : PitmanBmi)
    (dest : ndarray) :
  name <> "storage"%string -> name <> "discharge"%string ->
  get_value name (self, dest) =
    ((self, dest), Raise (ValueError ("Unknown variable " ++ name))) /\
  get_var_units name self =
    (self, Raise (ValueError ("Unknown variable " ++ name))).
Proof.
  intros Hs Hd. split.
  - exact (get_value_unknown name self dest Hs Hd).
  - exact (get_var_units_unknown name self Hs Hd).
Qed.


Lemma C4_witness :
  get_value "bogus" (demo_running, [7%float]) =
    ((demo_running, [7%float]),
     Raise (ValueError "Unknown variable bogus")) /\
  get_var_units "bogus" demo_running =
    (demo_running, Raise (ValueError "Unknown variable bogus")).
Proof.
  apply (C4_unknown_variable_rejected "bogus" demo_running [7%float]);
    discriminate.
Defined.

(** C5.  [set_value "storage"] overwrites the storage with the first
    element of [src], whatever its sign or size, and touches nothing else;
    for every other name, ["discharge"] included, [set_value] raises
    [ValueError "Cannot set value of var <name>"] and leaves the instance
    as it was. *)
Theorem C5_set_value (self : PitmanBmi) (v : float64) (rest : ndarray)
    (name : string) (src : ndarray) :
  (exists self' : PitmanBmi,
     set_value "storage" (v :: rest) self = (self', Ok tt) /\
     storage self' = Some (Np v) /\
     discharge self' = discharge self /\
     current_timestep self' = current_timestep self /\
     end_timestep self' = end_timestep self /\
     timestep_size self' = timestep_size self /\
     precipitation self' = precipitation self /\
     leakiness self' = leakiness self) /\
  (name <> "storage"%string ->
   set_value name src self =
     (self, Raise (ValueError ("Cannot set value of var " ++ name)))).
Proof.
  split.
  - exists (set_storage (Np v) self).
    split; [apply set_value_storage | repeat split].
  - apply set_value_other.
Qed.

Lemma C5_witness :
  set_value "discharge" [4%float] demo_running =
    (demo_running, Raise (ValueError "Cannot set value of var discharge")).
Proof.
  apply (C5_set_value demo_running 4%float [] "discharge" [4%float]).
  discriminate.
Defined.




(** C7.  Whatever the instance, [get_var_units "storage"] returns ["m"]
    and [get_var_units "discharge"] returns ["m d-1"], and the instance is
    left as it was. *)
Theorem C7_get_var_units (self : PitmanBmi) :
  get_var_units "storage" self = (self, Ok "m"%string) /\
  get_var_units "discharge" self = (self, Ok "m d-1"%string).
Proof. split; reflexivity. Qed.

(** C8.  [0 <= current_timestep <= end_timestep] holds when [initialize]
    has returned and is kept by every method.  [update] never changes
    [end_timestep]; it adds exactly one to [current_timestep] when
    [current_timestep < end_timestep] and the step completes (which it does
    once storage, forcing value, step duration and leak coefficient are
    there), and leaves [current_timestep] alone otherwise.  [get_value],
    [get_var_units], [get_component_name] and [get_output_var_names] change
    no attribute, and [set_value] changes neither index. *)
Theorem C8_step_index_invariant :
  (forall read_config load_var config_file (self self' : PitmanBmi),
     initialize read_config load_var config_file self = (self', Ok tt) ->
     step_invariant self') /\
  (forall self : PitmanBmi,
     step_invariant self -> step_invariant (fst (update self))) /\
  (forall (self : PitmanBmi) (c e : Z),
     current_timestep self = Some c -> end_timestep self = Some e ->
     end_timestep (fst (update self)) = Some e /\
     current_timestep (fst (update self)) =
       Some (match snd (update self) with
             | Ok _ => if c <? e then c + 1 else c
             | Raise _ => c
             end)) /\
  (forall (self : PitmanBmi) (c e : Z) (pr : DataArray) (s p k dt : num),
     current_timestep self = Some c -> end_timestep self = Some e -> c < e ->
     storage self = Some s -> precipitation self = Some pr ->
     isel pr c = Ok p -> leakiness self = Some k ->
     timestep_size self = Some dt ->
     snd (update self) = Ok tt /\
     current_timestep (fst (update self)) = Some (c + 1) /\
     c + 1 <= e) /\
  (forall (name : string) (self : PitmanBmi) (dest : ndarray),
     fst (fst (get_value name (self, dest))) = self) /\
  (forall (name : string) (self : PitmanBmi),
     fst (get_var_units name self) = self) /\
  (forall (name : string) (src : ndarray) (self : PitmanBmi),
     current_timestep (fst (set_value name src self)) = current_timestep self /\
     end_timestep (fst (set_value name src self)) = end_timestep self) /\
  (forall self : PitmanBmi, fst (get_component_name self) = self) /\
  (forall self : PitmanBmi, fst (get_output_var_names self) = self).
Proof.
  split.
  { intros rc lv file self self' Hinit.
    destruct (initialize_Ok rc lv file self self' tt Hinit)
      as (pr & t0 & t1 & _ & _ & _ & _ & Hc & He & _).
    exists 0, (Z.of_nat (length (time_coord pr))).
    split; [exact Hc |]. split; [exact He | lia]. }
  split; [exact update_step_invariant |].
  split; [exact update_indices |].
  split.
  { intros self c e pr s p k dt Hc He Hlt Hs Hpr Hp Hk Hdt.
    rewrite (update_step self c e pr s p k dt Hc He Hlt Hs Hpr Hp Hk Hdt).
    cbn [fst snd]. repeat split. lia. }
  split; [exact get_value_self |].
  split; [exact get_var_units_self |].
  split; [exact set_value_indices |].
  split; reflexivity.
Qed.

Lemma C8_witness :
  step_invariant demo_initialized /\
  step_invariant (fst (update demo_model)) /\
  current_timestep (fst (update demo_model)) = Some (0 + 1).
Proof.
  destruct C8_step_index_invariant
    as (Hinit & Hupdate & _ & Hstep & _).
  assert (Hdemo : step_invariant demo_initialized).
  { apply (Hinit demo_read_config demo_load_var "pitman.yaml"%string
             new_instance).
    vm_compute. reflexivity. }
  split; [exact Hdemo |]. split.
  - apply Hupdate. exists 0, 3.
    split; [vm_compute; reflexivity |].
    split; [vm_compute; reflexivity | lia].
  - apply (Hstep demo_model 0 3 demo_forcing (int 0)
             (Np (10 / 86400)) (Py (1 / 10))
             (Np 86400));
      vm_compute; reflexivity.
Defined.

(** C9, as amended.  When [initialize] has returned, storage and discharge
    are both [0]; [get_value "storage"] then fills the buffer with zeros,
    and [get_value "discharge"] does so when the derived step duration is a
    number other than zero: every cell receives [0 / (dt / 24 / 3600)],
    which is then [0.0], or [-0.0] when the step duration is negative. *)
Theorem C9_initial_state_reads_zero
    (read_config : string -> result (gmap string pyval))
    (load_var : pyval -> string -> result DataArray)
    (config_file : string) (self self' : PitmanBmi) (buf : ndarray) :
  initialize read_config load_var config_file self = (self', Ok tt) ->
  storage self' = Some (int 0) /\
  discharge self' = Some (int 0) /\
  get_value "storage" (self', buf) =
    ((self', map (fun _ => 0%float) buf), Ok (map (fun _ => 0%float) buf)) /\
  exists dt : num,
    timestep_size self' = Some dt /\
    ((value dt =? 0)%float = false -> is_nan (value dt) = false ->
     get_value "discharge" (self', buf) =
       ((self',
         map (fun _ => if (value dt <? 0)%float then (-0)%float else 0%float)
           buf),
        Ok (map (fun _ =>
                   if (value dt <? 0)%float then (-0)%float else 0%float)
              buf))).
Proof.
  intros Hinit.
  destruct (initialize_Ok read_config load_var config_file self self' tt Hinit)
    as (pr & t0 & t1 & _ & _ & _ & Hdt & _ & _ & Hs & Hd).
  split; [exact Hs |]. split; [exact Hd |].
  split; [exact (get_value_storage self' buf (int 0) Hs) |].
  exists (step_duration t0 t1). split; [exact Hdt |].
  intros Hnz Hnan.
  rewrite (get_value_discharge_numpy self' buf (int 0) (step_duration t0 t1)
             Hd Hdt)
    by (rewrite step_duration_numpy; apply andb_false_r).
  rewrite value_quotient.
  change (value (int 0)) with 0%float.
  now rewrite (zero_div_at_least _ _ _
                 (step_duration_day_fraction t0 t1 Hnz Hnan)).
Qed.

Lemma C9_witness :
  storage demo_initialized = Some (int 0) /\
  discharge demo_initialized = Some (int 0) /\
  get_value "storage" (demo_initialized, [nan]) =
    ((demo_initialized, [0%float]), Ok [0%float]) /\
  get_value "discharge" (demo_initialized, [nan]) =
    ((demo_initialized, [0%float]), Ok [0%float]).
Proof.
  destruct (C9_initial_state_reads_zero demo_read_config demo_load_var
              "pitman.yaml" new_instance demo_initialized [nan])
    as (Hs & Hd & Hgs & dt & Hdt & Hgd);
    [vm_compute; reflexivity |].
  split; [exact Hs |]. split; [exact Hd |]. split; [exact Hgs |].
  assert (Hday : dt = Np 86400)
    by (vm_compute in Hdt; now injection Hdt as <-).
  subst dt. apply Hgd; reflexivity.
Defined.

(** C9 as stated fails in two ways.  For a forcing series whose first two
    time stamps coincide, [initialize] returns, the step duration is zero,
    and [get_value "discharge"] writes the quotient [0 / 0], which is [nan]
    and not zero.  For a series whose first time stamp is missing the step
    duration is [nan], a value other than zero, and the cells receive [nan]
    again. *)
Lemma C9_counterexample :
  initialize demo_read_config stalled_load_var "pitman.yaml" new_instance =
    (stalled_initialized, Ok tt) /\
  discharge stalled_initialized = Some (int 0) /\
  timestep_size stalled_initialized = Some (Np 0) /\
  get_value "discharge" (stalled_initialized, [7%float]) =
    ((stalled_initialized, [nan]), Ok [nan]) /\
  (nan =? 0)%float = false /\
  initialize demo_read_config undated_load_var "pitman.yaml" new_instance =
    (undated_initialized, Ok tt) /\
  timestep_size undated_initialized = Some (Np nan) /\
  get_value "discharge" (undated_initialized, [7%float]) =
    ((undated_initialized, [nan]), Ok [nan]).
Proof.
  split; [vm_compute; reflexivity |]. split; [vm_compute; reflexivity |].
  split; [vm_compute; reflexivity |]. split; [vm_compute; reflexivity |].
  split; [vm_compute; reflexivity |]. split; [vm_compute; reflexivity |].
  split; vm_compute; reflexivity.
Qed.

(** The first step after [initialize] is always due: the series has at
    least the two points the step duration was taken from. *)
Lemma initialize_first_step
    (read_config : string -> result (gmap string pyval))
    (load_var : pyval -> string -> result DataArray)
    (config_file : string) (self self' : PitmanBmi) :
  initialize read_config load_var config_file self = (self', Ok tt) ->
  exists (e : Z) (pr : DataArray) (p dt : num),
    current_timestep self' = Some 0 /\ end_timestep self' = Some e /\
    0 < e /\ storage self' = Some (int 0) /\
    precipitation self' = Some pr /\ isel pr 0 = Ok p /\
    timestep_size self' = Some dt.
Proof.
  intros Hinit.
  destruct (initialize_Ok read_config load_var config_file self self' tt Hinit)
    as (pr & t0 & t1 & _ & Ht1 & Hpr & Hdt & Hc & He & Hs & _).
  apply getitem_Ok_bound in Ht1; [| lia].
  unfold time_coord in *. rewrite length_map in *.
  destruct (getitem_in_bounds (map snd pr) 0) as [p Hp];
    [rewrite length_map; lia |].
  assert (Hisel : isel pr 0 = Ok (Np p)) by (unfold isel; now rewrite Hp).
  exists (Z.of_nat (length pr)), pr, (Np p), (step_duration t0 t1).
  repeat split; try assumption; lia.
Qed.

(** C10.  [initialize] never assigns [leakiness]: the attribute is after
    the call what it was before, whatever the outcome.  So when [initialize]
    has returned on an instance without it, the first step is due
    ([current_timestep = 0 < end_timestep]) and [update] raises
    [AttributeError] for [leakiness]; had a caller assigned it, the same
    [update] would return. *)
Theorem C10_leakiness_never_assigned
    (read_config : string -> result (gmap string pyval))
    (load_var : pyval -> string -> result DataArray)
    (config_file : string) (self self' : PitmanBmi) :
  leakiness (fst (initialize read_config load_var config_file self)) =
    leakiness self /\
  (initialize read_config load_var config_file self = (self', Ok tt) ->
   (exists e : Z,
      current_timestep self' = Some 0 /\ end_timestep self' = Some e /\
      0 < e) /\
   (leakiness self = None ->
    snd (update self') = Raise (AttributeError "leakiness")) /\
   (forall k : num,
      leakiness self = Some k -> snd (update self') = Ok tt)).
Proof.
  split; [apply initialize_leakiness |].
  intros Hinit.
  pose proof (initialize_leakiness read_config load_var config_file self)
    as Hleak.
  rewrite Hinit in Hleak. cbn [fst] in Hleak.
  destruct (initialize_first_step _ _ _ _ _ Hinit)
    as (e & pr & p & dt & Hc & He & Hlt & Hs & Hpr & Hp & Hdt).
  split; [now exists e |]. split.
  - intros Hnone. rewrite <- Hleak in Hnone.
    now rewrite (update_without_leakiness self' 0 e pr (int 0) p dt).
  - intros k Hk. rewrite <- Hleak in Hk.
    now rewrite (update_step self' 0 e pr (int 0) p k dt).
Qed.

Lemma C10_witness :
  leakiness demo_initialized = None /\
  snd (update demo_initialized) = Raise (AttributeError "leakiness").
Proof.
  destruct (C10_leakiness_never_assigned demo_read_config demo_load_var
              "pitman.yaml" new_instance demo_initialized)
    as (Hleak & Hfirst).
  split; [exact Hleak |].
  destruct Hfirst as (_ & Hraise & _); [vm_compute; reflexivity |].
  apply Hraise. reflexivity.
Defined.

(** * Further properties of the code *)

(** ** Rules for [outcome] *)

Lemma outcome_ret {σ A} (a : A) (s : σ) (Q : σ -> result A -> Prop) :
  Q s (Ok a) -> outcome (mret a) s Q.
Proof. intros H. exact H. Qed.

Lemma outcome_raise {σ A} (e : exn) (s : σ) (Q : σ -> result A -> Prop) :
  Q s (Raise e) -> outcome (raise e) s Q.
Proof. intros H. exact H. Qed.

Lemma outcome_lift {σ A} (r : result A) (s : σ) (Q : σ -> result A -> Prop) :
  Q s r -> outcome (lift r) s Q.
Proof. intros H. exact H. Qed.

Lemma outcome_bind {σ A B} (m : M σ A) (k : A -> M σ B) (s : σ)
    (Q : σ -> result B -> Prop) :
  outcome m s
    (fun s1 r =>
       match r with
       | Ok a => outcome (k a) s1 Q
       | Raise e => Q s1 (Raise e)
       end) ->
  outcome (m ≫= k) s Q.
Proof.
  unfold outcome, mbind, M_bind.
  destruct (m s) as [s1 [a | e]]; cbn [fst snd]; intros H; exact H.
Qed.

Lemma outcome_getattr {A} (name : string) (attr : PitmanBmi -> option A)
    (s : PitmanBmi) (Q : PitmanBmi -> result A -> Prop) :
  match attr s with
  | Some v => Q s (Ok v)
  | None => Q s (Raise (AttributeError name))
  end ->
  outcome (getattr name attr) s Q.
Proof.
  unfold outcome, getattr. destruct (attr s); intros H; exact H.
Qed.

Lemma outcome_setattr (update_attr : PitmanBmi -> PitmanBmi) (s : PitmanBmi)
    (Q : PitmanBmi -> result unit -> Prop) :
  Q (update_attr s) (Ok tt) -> outcome (setattr update_attr) s Q.
Proof. intros H. exact H. Qed.

(** ** Initialization: the path that returns *)

Lemma dict_getitem_Ok (d : gmap string pyval) (key : string) (v : pyval) :
  dict_getitem d key = Ok v <-> d !! key = Some v.
Proof.
  unfold dict_getitem. destruct (d !! key); split; congruence.
Qed.

Lemma dict_getitem_Raise (d : gmap string pyval) (key : string) (e : exn) :
  dict_getitem d key = Raise e <-> d !! key = None /\ e = KeyError key.
Proof.
  unfold dict_getitem. destruct (d !! key); split;
    try intros [? ?]; try split; congruence.
Qed.

(** Two instances with the same attributes are the same instance. *)
Lemma PitmanBmi_ext (a b : PitmanBmi) :
  config a = config b -> precipitation a = precipitation b ->
  time_data a = time_data b -> timestep_size a = timestep_size b ->
  current_timestep a = current_timestep b ->
  end_timestep a = end_timestep b -> storage a = storage b ->
  discharge a = discharge b -> PI a = PI b -> AI a = AI b ->
  ZMIN a = ZMIN b -> ZMAX a = ZMAX b -> ST a = ST b -> SL a = SL b ->
  FT a = FT b -> GW a = GW b -> R a = R b -> POW a = POW b ->
  TL a = TL b -> GL a = GL b -> leakiness a = leakiness b ->
  a = b.
Proof.
  destruct a, b. cbn. intros. subst. reflexivity.
Qed.

Lemma initialize_state
    (read_config : string -> result (gmap string pyval))
    (load_var : pyval -> string -> result DataArray)
    (config_file : string) (self : PitmanBmi) :
  ensures (initialize read_config load_var config_file) self
    (fun self' _ =>
       exists (cfg : gmap string pyval) (file : pyval) (pr : DataArray)
              (t0 t1 : Z),
         read_config config_file = Ok cfg /\
         cfg !! "precipitation_file" = Some file /\
         load_var file "pr" = Ok pr /\
         getitem (time_coord pr) 0 = Ok t0 /\
         getitem (time_coord pr) 1 = Ok t1 /\
         Forall (fun key => is_Some (cfg !! key)) pitman_keys /\
         self' = initialized cfg pr t0 t1 self).
Proof.
  unfold initialize, config_item. repeat ensures_step.
  cbv beta.
  repeat match goal with
         | H : dict_getitem _ _ = Ok _ |- _ => apply dict_getitem_Ok in H
         end.
  eexists _, _, _, _, _.
  split; [eassumption |]. split; [eassumption |].
  split; [eassumption |]. split; [eassumption |].
  split; [eassumption |].
  split.
  - unfold pitman_keys. repeat (apply Forall_cons; split; [eauto |]).
    apply Forall_nil_2.
  - apply PitmanBmi_ext; unfold initialized; obj_simpl;
      first [reflexivity | symmetry; assumption].
Qed.

Lemma outcome_eq {σ A} (m : M σ A) (s s' : σ) (r : result A) :
  outcome m s (fun s1 r1 => s1 = s' /\ r1 = r) -> m s = (s', r).
Proof.
  unfold outcome. destruct (m s) as [s1 r1]. cbn [fst snd].
  intros [-> ->]. reflexivity.
Qed.

Ltac attr_simpl :=
  cbn [config precipitation time_data timestep_size current_timestep
       end_timestep storage discharge PI AI ZMIN ZMAX ST SL FT GW R POW TL GL
       leakiness
       set_config set_precipitation set_time_data set_timestep_size
       set_current_timestep set_end_timestep set_storage set_discharge
       set_PI set_AI set_ZMIN set_ZMAX set_ST set_SL set_FT set_GW set_R
       set_POW set_TL set_GL assign_leakiness].

(** One step through a method, on every path: a collaborator's answer is
    read from a hypothesis when there is one, and split on otherwise. *)
Ltac outcome_step :=
  cbv beta;
  lazymatch goal with
  | |- outcome (mbind _ _) _ _ => apply outcome_bind
  | |- outcome (setattr _) _ _ => apply outcome_setattr
  | |- outcome (mret _) _ _ => apply outcome_ret
  | |- outcome (raise _) _ _ => apply outcome_raise
  | |- outcome (getattr _ _) _ _ => apply outcome_getattr; attr_simpl
  | |- outcome (lift _) _ _ =>
      apply outcome_lift; cbv beta;
      match goal with
      | H : ?r = Ok _ |- match ?r with Ok _ => _ | Raise _ => _ end =>
          rewrite H
      | H : ?r = Raise _ |- match ?r with Ok _ => _ | Raise _ => _ end =>
          rewrite H
      | H : ?d !! ?k = Some _
        |- match dict_getitem ?d ?k with Ok _ => _ | Raise _ => _ end =>
          rewrite (proj2 (dict_getitem_Ok d k _) H)
      | H : ?d !! ?k = None
        |- match dict_getitem ?d ?k with Ok _ => _ | Raise _ => _ end =>
          rewrite (proj2 (dict_getitem_Raise d k _) (conj H eq_refl))
      | |- match dict_getitem ?d ?k with Ok _ => _ | Raise _ => _ end =>
          let v := fresh "v" in
          let Hv := fresh "Hv" in
          unfold dict_getitem at 1; destruct (d !! k) as [v |] eqn:Hv
      | |- match ?r with Ok _ => _ | Raise _ => _ end =>
          destruct r eqn:?
      end
  end.

Lemma Forall_pitman_keys (P : string -> Prop) :
  Forall P pitman_keys <->
  P "interception storage"%string /\
  P "ratio of impervious to total area"%string /\
  P "minimum catchment absorption rate"%string /\
  P "maximum catchment absorption rate"%string /\
  P "maximum moisture storage capacity"%string /\
  P "moisture storage capacity below which no runoff occurs"%string /\
  P "runoff from moisture storage at full capacity"%string /\
  P "maximum groundwater runoff"%string /\
  P "evaporation-moisture storage relationship parameter"%string /\
  P "power of the moisture storage-runoff equation"%string /\
  P "lag for surface and soil moisture"%string /\
  P "lag for groundwater runoff"%string.
Proof.
  unfold pitman_keys. rewrite !Forall_cons, Forall_nil. tauto.
Qed.

(** When the collaborators deliver and nothing is missing, [initialize]
    returns. *)
Lemma initialize_returns
    (read_config : string -> result (gmap string pyval))
    (load_var : pyval -> string -> result DataArray)
    (config_file : string) (self : PitmanBmi)
    (cfg : gmap string pyval) (file : pyval) (pr : DataArray) (t0 t1 : Z) :
  read_config config_file = Ok cfg ->
  cfg !! "precipitation_file" = Some file ->
  load_var file "pr" = Ok pr ->
  getitem (time_coord pr) 0 = Ok t0 ->
  getitem (time_coord pr) 1 = Ok t1 ->
  Forall (fun key => is_Some (cfg !! key)) pitman_keys ->
  initialize read_config load_var config_file self =
    (initialized cfg pr t0 t1 self, Ok tt).
Proof.
  intros Hcfg Hfile Hpr Ht0 Ht1 Hkeys.
  apply Forall_pitman_keys in Hkeys.
  destruct Hkeys as ([v1 H1] & [v2 H2] & [v3 H3] & [v4 H4] & [v5 H5]
                     & [v6 H6] & [v7 H7] & [v8 H8] & [v9 H9] & [v10 H10]
                     & [v11 H11] & [v12 H12]).
  apply outcome_eq.
  unfold initialize, config_item. repeat outcome_step.
  cbv beta. split; [| reflexivity].
  apply PitmanBmi_ext; unfold initialized; obj_simpl;
    first [reflexivity | symmetry; assumption].
Qed.
(** ** Initialization: the paths that raise *)

Lemma getitem_out_of_bounds {A} (a : list A) (i : Z) :
  Z.of_nat (length a) <= i -> getitem a i = Raise IndexError.
Proof.
  intros Hi. unfold getitem.
  destruct (Z.ltb_spec i 0) as [Hneg | _]; [lia |].
  destruct (Z.ltb_spec i (Z.of_nat (length a))) as [Hlt | _]; [lia |].
  now rewrite andb_false_r.
Qed.

Lemma time_coord_length (pr : DataArray) :
  length (time_coord pr) = length pr.
Proof. unfold time_coord. apply length_map. Qed.

(** The failures of [initialize] before the step duration is computed. *)
Lemma initialize_read_config_raises
    (read_config : string -> result (gmap string pyval))
    (load_var : pyval -> string -> result DataArray)
    (config_file : string) (self : PitmanBmi) (e : exn) :
  read_config config_file = Raise e ->
  initialize read_config load_var config_file self = (self, Raise e).
Proof.
  intros Hcfg. apply outcome_eq.
  unfold initialize, config_item. repeat outcome_step.
  cbv beta. now split.
Qed.

Lemma initialize_no_precipitation_file
    (read_config : string -> result (gmap string pyval))
    (load_var : pyval -> string -> result DataArray)
    (config_file : string) (self : PitmanBmi) (cfg : gmap string pyval) :
  read_config config_file = Ok cfg ->
  cfg !! "precipitation_file" = None ->
  initialize read_config load_var config_file self =
    (set_config cfg self, Raise (KeyError "precipitation_file")).
Proof.
  intros Hcfg Hfile. apply outcome_eq.
  unfold initialize, config_item. repeat outcome_step.
  cbv beta. now split.
Qed.

Lemma initialize_load_var_raises
    (read_config : string -> result (gmap string pyval))
    (load_var : pyval -> string -> result DataArray)
    (config_file : string) (self : PitmanBmi) (cfg : gmap string pyval)
    (file : pyval) (e : exn) :
  read_config config_file = Ok cfg ->
  cfg !! "precipitation_file" = Some file ->
  load_var file "pr" = Raise e ->
  initialize read_config load_var config_file self =
    (set_config cfg self, Raise e).
Proof.
  intros Hcfg Hfile Hpr. apply outcome_eq.
  unfold initialize, config_item. repeat outcome_step.
  cbv beta. now split.
Qed.

Lemma initialize_short_series
    (read_config : string -> result (gmap string pyval))
    (load_var : pyval -> string -> result DataArray)
    (config_file : string) (self : PitmanBmi) (cfg : gmap string pyval)
    (file : pyval) (pr : DataArray) :
  read_config config_file = Ok cfg ->
  cfg !! "precipitation_file" = Some file ->
  load_var file "pr" = Ok pr ->
  (length pr < 2)%nat ->
  initialize read_config load_var config_file self =
    (set_time_data (time_coord pr) (set_precipitation pr (set_config cfg self)),
     Raise IndexError).
Proof.
  intros Hcfg Hfile Hpr Hlen.
  assert (Ht1 : getitem (time_coord pr) 1 = Raise IndexError)
    by (apply getitem_out_of_bounds; rewrite time_coord_length; lia).
  apply outcome_eq.
  unfold initialize, config_item. repeat outcome_step.
  cbv beta. now split.
Qed.

(** A missing parameter stops [initialize] at the first key it does not
    find, after the state of the recurrence has been assigned. *)
Ltac missing_at n :=
  eexists (take n pitman_keys), _, (drop (S n) pitman_keys);
  split; [reflexivity |];
  split; [cbn; repeat (apply Forall_cons; split; [eauto |]);
          apply Forall_nil_2 |];
  split; [eassumption | reflexivity].

Lemma initialize_missing_parameter
    (read_config : string -> result (gmap string pyval))
    (load_var : pyval -> string -> result DataArray)
    (config_file : string) (self : PitmanBmi) (cfg : gmap string pyval)
    (file : pyval) (pr : DataArray) (t0 t1 : Z) :
  read_config config_file = Ok cfg ->
  cfg !! "precipitation_file" = Some file ->
  load_var file "pr" = Ok pr ->
  getitem (time_coord pr) 0 = Ok t0 ->
  getitem (time_coord pr) 1 = Ok t1 ->
  ~ Forall (fun key => is_Some (cfg !! key)) pitman_keys ->
  outcome (initialize read_config load_var config_file) self
    (fun self' r =>
       (exists (before : list string) (key : string) (after : list string),
          pitman_keys = before ++ key :: after /\
          Forall (fun key' => is_Some (cfg !! key')) before /\
          cfg !! key = None /\
          r = Raise (KeyError key)) /\
       precipitation self' = Some pr /\
       timestep_size self' = Some (step_duration t0 t1) /\
       current_timestep self' = Some 0 /\
       end_timestep self' = Some (Z.of_nat (length pr)) /\
       storage self' = Some (int 0) /\
       discharge self' = Some (int 0) /\
       leakiness self' = leakiness self).
Proof.
  intros Hcfg Hfile Hpr Ht0 Ht1 Hkeys.
  unfold initialize, config_item. repeat outcome_step; cbv beta.
  all: try (split;
            [ first [ solve [missing_at 0%nat] | solve [missing_at 1%nat]
                    | solve [missing_at 2%nat] | solve [missing_at 3%nat]
                    | solve [missing_at 4%nat] | solve [missing_at 5%nat]
                    | solve [missing_at 6%nat] | solve [missing_at 7%nat]
                    | solve [missing_at 8%nat] | solve [missing_at 9%nat]
                    | solve [missing_at 10%nat] | solve [missing_at 11%nat] ]
            | obj_simpl; rewrite ?time_coord_length; repeat split ]).
  exfalso. apply Hkeys. apply Forall_pitman_keys. eauto 20.
Qed.

(** ** Runs *)

Lemma isel_in_bounds (pr : DataArray) (i : Z) :
  0 <= i < Z.of_nat (length pr) -> exists p, isel pr i = Ok (Np p).
Proof.
  intros Hi. unfold isel.
  destruct (getitem_in_bounds (map snd pr) i) as [p Hp];
    [now rewrite length_map |].
  exists p. now rewrite Hp.
Qed.

(** What [isel] returns is a NumPy number. *)
Lemma isel_numpy (pr : DataArray) (i : Z) (p : num) :
  isel pr i = Ok p -> is_python p = false.
Proof.
  unfold isel. destruct (getitem (map snd pr) i); [| discriminate].
  now intros [= <-].
Qed.

(** A runnable instance takes its step. *)
Lemma update_runnable (self : PitmanBmi) :
  runnable self -> snd (update self) = Ok tt /\ runnable (fst (update self)).
Proof.
  intros (c & e & pr & s & dt & k & Hc & He & Hb & Hpr & Hlen & Hs & Hdt & Hk).
  destruct (Z.lt_ge_cases c e) as [Hlt | Hge].
  - destruct (isel_in_bounds pr c) as [p Hp]; [lia |].
    rewrite (update_step self c e pr s (Np p) k dt Hc He Hlt Hs Hpr Hp Hk Hdt).
    cbn [fst snd]. split; [reflexivity |].
    exists (c + 1), e, pr. eexists _, dt, k. obj_simpl.
    repeat split; try assumption; lia.
  - rewrite (update_past_end self c e Hc He Hge).
    cbn [fst snd]. split; [reflexivity |].
    exists c, e, pr, s, dt, k. repeat split; try assumption; lia.
Qed.

Lemma update_runnable_index (self : PitmanBmi) (c e : Z) :
  runnable self ->
  current_timestep self = Some c -> end_timestep self = Some e ->
  current_timestep (fst (update self)) = Some (Z.min (c + 1) e) /\
  end_timestep (fst (update self)) = Some e.
Proof.
  intros Hrun Hc He.
  destruct (update_indices self c e Hc He) as [He' Hc'].
  destruct (update_runnable self Hrun) as [Hok _].
  rewrite Hok in Hc'. split; [| exact He'].
  rewrite Hc'. f_equal.
  destruct Hrun as (c0 & e0 & _ & _ & _ & _ & Hc0 & He0 & Hb & _).
  assert (c0 = c) by congruence. assert (e0 = e) by congruence. subst.
  destruct (Z.ltb_spec c e); lia.
Qed.

(** A run of [n] calls on a runnable instance returns, and stops counting
    at the end of the series. *)
Lemma repeat_update_runnable (n : nat) (self : PitmanBmi) (c e : Z) :
  runnable self ->
  current_timestep self = Some c -> end_timestep self = Some e ->
  snd (repeat_update n self) = Ok tt /\
  runnable (fst (repeat_update n self)) /\
  current_timestep (fst (repeat_update n self)) =
    Some (Z.min (c + Z.of_nat n) e) /\
  end_timestep (fst (repeat_update n self)) = Some e.
Proof.
  revert self c. induction n as [| n IH]; intros self c Hrun Hc He.
  - cbn [repeat_update]. unfold mret, M_ret. cbn [fst snd].
    split; [reflexivity |]. split; [exact Hrun |]. split; [| exact He].
    rewrite Hc. f_equal.
    destruct Hrun as (c0 & e0 & _ & _ & _ & _ & Hc0 & He0 & Hb & _).
    assert (c0 = c) by congruence. assert (e0 = e) by congruence. lia.
  - destruct (update_runnable self Hrun) as [Hok Hrun'].
    destruct (update_runnable_index self c e Hrun Hc He) as [Hc' He'].
    cbn [repeat_update]. unfold mbind, M_bind.
    destruct (update self) as [self1 r1]. cbn [fst snd] in *. subst r1.
    destruct (IH self1 _ Hrun' Hc' He') as (Hok2 & Hrun2 & Hc2 & He2).
    split; [exact Hok2 |]. split; [exact Hrun2 |]. split; [| exact He2].
    rewrite Hc2. f_equal. lia.
Qed.

(** ** What [update] leaves alone *)

Ltac preserves_walk :=
  repeat first
    [ preserves_step
    | match goal with
      | |- preserves _ (if ?b then _ else _) => destruct b
      end ].

Lemma update_keeps_inputs : keeps_inputs update.
Proof. unfold keeps_inputs, update. repeat split; preserves_walk. Qed.

Lemma set_value_keeps_inputs (name : string) (src : ndarray) :
  keeps_inputs (set_value name src).
Proof. unfold keeps_inputs, set_value. repeat split; preserves_walk. Qed.

Lemma preserves_repeat_update {B} (f : PitmanBmi -> B) (n : nat) :
  preserves f update -> preserves f (repeat_update n).
Proof.
  intros Hf. induction n as [| n IH]; cbn [repeat_update].
  - apply preserves_ret.
  - apply preserves_bind; [exact Hf | intros _; exact IH].
Qed.

Lemma repeat_update_keeps_inputs (n : nat) : keeps_inputs (repeat_update n).
Proof.
  pose proof update_keeps_inputs as H. unfold keeps_inputs in *.
  repeat match goal with H : _ /\ _ |- _ => destruct H end.
  repeat split; now apply preserves_repeat_update.
Qed.


(** ** The paths of [update] *)

(** [update] as one case distinction over the attributes it reads, in the
    order it reads them. *)
Lemma update_cases (self : PitmanBmi) :
  update self =
  match current_timestep self with
  | None => (self, Raise (AttributeError "current_timestep"))
  | Some c =>
  match end_timestep self with
  | None => (self, Raise (AttributeError "end_timestep"))
  | Some e =>
  if c <? e then
    match storage self with
    | None => (self, Raise (AttributeError "storage"))
    | Some s =>
    match precipitation self with
    | None => (self, Raise (AttributeError "precipitation"))
    | Some pr =>
    match isel pr c with
    | Raise err => (self, Raise err)
    | Ok p =>
    match timestep_size self with
    | None => (self, Raise (AttributeError "timestep_size"))
    | Some dt =>
    match leakiness self with
    | None =>
        (set_storage (s + p * dt)%num self,
         Raise (AttributeError "leakiness"))
    | Some k =>
        (set_current_timestep (c + 1)
           (set_storage
              (s + p * dt - (s + p * dt) * k * day_fraction dt)%num
              (set_discharge ((s + p * dt) * k)%num
                 (set_storage (s + p * dt)%num self))),
         Ok tt)
    end end end end end
  else (self, Ok tt)
  end end.
Proof.
  unfold update. unfold_monad.
  destruct (current_timestep self) as [c |] eqn:Hc; [| reflexivity].
  destruct (end_timestep self) as [e |] eqn:He; [| reflexivity].
  destruct (c <? e) eqn:Hlt; [| reflexivity].
  exec; reflexivity.
Qed.

(** [update] reads nothing but the attributes of [same_dynamics]. *)
Lemma update_same_dynamics (a b : PitmanBmi) :
  same_dynamics a b ->
  snd (update a) = snd (update b) /\
  same_dynamics (fst (update a)) (fst (update b)).
Proof.
  intros (Hc & He & Hs & Hd & Hpr & Hdt & Hk).
  rewrite !update_cases, Hc, He, Hs, Hpr, Hdt, Hk.
  unfold same_dynamics.
  destruct (current_timestep b) as [c |] eqn:Hcb;
    [| cbn [fst snd]; repeat split; congruence].
  destruct (end_timestep b) as [e |] eqn:Heb;
    [| cbn [fst snd]; repeat split; congruence].
  destruct (c <? e); [| cbn [fst snd]; repeat split; congruence].
  destruct (storage b) as [s |] eqn:Hsb;
    [| cbn [fst snd]; repeat split; congruence].
  destruct (precipitation b) as [pr |] eqn:Hprb;
    [| cbn [fst snd]; repeat split; congruence].
  destruct (isel pr c) as [p |];
    [| cbn [fst snd]; repeat split; congruence].
  destruct (timestep_size b) as [dt |] eqn:Hdtb;
    [| cbn [fst snd]; repeat split; congruence].
  destruct (leakiness b) as [k |] eqn:Hkb;
    cbn [fst snd]; obj_simpl; repeat split; congruence.
Qed.

(** The only raise of [update] that leaves a trace is the one for a
    missing [leakiness]. *)
Lemma update_raise (self : PitmanBmi) (err : exn) :
  snd (update self) = Raise err ->
  discharge (fst (update self)) = discharge self /\
  current_timestep (fst (update self)) = current_timestep self /\
  (err <> AttributeError "leakiness" -> fst (update self) = self).
Proof.
  rewrite update_cases.
  destruct (current_timestep self) as [c |] eqn:Hc;
    [| cbn [fst snd]; intros; repeat split; congruence].
  destruct (end_timestep self) as [e |];
    [| cbn [fst snd]; intros; repeat split; congruence].
  destruct (c <? e); [| discriminate].
  destruct (storage self) as [s |];
    [| cbn [fst snd]; intros; repeat split; congruence].
  destruct (precipitation self) as [pr |];
    [| cbn [fst snd]; intros; repeat split; congruence].
  destruct (isel pr c) as [p |];
    [| cbn [fst snd]; intros; repeat split; congruence].
  destruct (timestep_size self) as [dt |];
    [| cbn [fst snd]; intros; repeat split; congruence].
  destruct (leakiness self) as [k |]; [discriminate |].
  cbn [fst snd]. intros [= <-]. obj_simpl.
  repeat split; congruence.
Qed.

Lemma repeat_update_same_dynamics (n : nat) (a b : PitmanBmi) :
  same_dynamics a b ->
  snd (repeat_update n a) = snd (repeat_update n b) /\
  same_dynamics (fst (repeat_update n a)) (fst (repeat_update n b)).
Proof.
  revert a b. induction n as [| n IH]; intros a b Hab.
  - now split.
  - destruct (update_same_dynamics a b Hab) as [Hr Hab'].
    cbn [repeat_update]. unfold mbind, M_bind.
    destruct (update a) as [a1 ra], (update b) as [b1 rb].
    cbn [fst snd] in *. subst rb.
    destruct ra as [[] | err]; [exact (IH a1 b1 Hab') | now split].
Qed.


(** A step that failed for want of a leak coefficient has already taken
    in the precipitation; the step made after the caller supplies the
    coefficient takes it in again. *)
Lemma update_retry (self : PitmanBmi) (c e : Z) (pr : DataArray)
    (s p dt k : num) :
  current_timestep self = Some c -> end_timestep self = Some e -> c < e ->
  storage self = Some s -> precipitation self = Some pr -> isel pr c = Ok p ->
  timestep_size self = Some dt -> leakiness self = None ->
  exists self1 self2 : PitmanBmi,
    update self = (self1, Raise (AttributeError "leakiness")) /\
    storage self1 = Some (s + p * dt)%num /\
    discharge self1 = discharge self /\
    current_timestep self1 = Some c /\
    update (assign_leakiness k self1) = (self2, Ok tt) /\
    storage self2 =
      Some (s + p * dt + p * dt
            - (s + p * dt + p * dt) * k * (dt / int 24 / int 3600))%num /\
    current_timestep self2 = Some (c + 1).
Proof.
  intros Hc He Hlt Hs Hpr Hp Hdt Hk.
  eexists _, _. split.
  - exact (update_without_leakiness self c e pr s p dt
             Hc He Hlt Hs Hpr Hp Hdt Hk).
  - obj_simpl. split; [reflexivity |]. split; [reflexivity |].
    split; [exact Hc |]. split.
    + apply (update_step _ c e pr (s + p * dt)%num p k dt);
        obj_simpl; try assumption; reflexivity.
    + obj_simpl. split; reflexivity.
Qed.

(** Over steps without precipitation the storage goes through the same
    map at every step. *)
Lemma repeat_update_dry (n : nat) (self : PitmanBmi) (c e : Z)
    (pr : DataArray) (s dt k : num) :
  current_timestep self = Some c -> end_timestep self = Some e ->
  c + Z.of_nat n <= e ->
  precipitation self = Some pr ->
  (forall i, c <= i < c + Z.of_nat n -> isel pr i = Ok (Np 0)) ->
  storage self = Some s -> timestep_size self = Some dt ->
  leakiness self = Some k ->
  snd (repeat_update n self) = Ok tt /\
  storage (fst (repeat_update n self)) = Some (Nat.iter n (dry_step dt k) s) /\
  current_timestep (fst (repeat_update n self)) = Some (c + Z.of_nat n).
Proof.
  revert self c s. induction n as [| n IH];
    intros self c s Hc He Hn Hpr Hdry Hs Hdt Hk.
  - cbn [repeat_update Nat.iter nat_rect]. unfold mret, M_ret. cbn [fst snd].
    split; [reflexivity |]. split; [exact Hs |].
    rewrite Hc. f_equal. lia.
  - assert (Hp : isel pr c = Ok (Np 0)) by (apply Hdry; lia).
    assert (Hlt : c < e) by lia.
    cbn [repeat_update]. unfold mbind, M_bind.
    rewrite (update_step self c e pr s (Np 0) k dt Hc He Hlt Hs Hpr Hp Hk Hdt).
    match goal with
    | |- context [repeat_update n ?self1] =>
        destruct (IH self1 (c + 1) (dry_step dt k s))
          as (Hok & Hs' & Hc'); try assumption; try reflexivity; try lia
    end.
    { intros i Hi. apply Hdry. lia. }
    split; [exact Hok |]. split.
    + rewrite Hs'. f_equal. symmetry. apply Nat.iter_succ_r.
    + rewrite Hc'. f_equal. lia.
Qed.

(** ** Accessors: raises, shapes and names *)

Lemma get_value_atomic (name : string) (self : PitmanBmi) (dest : ndarray)
    (err : exn) :
  snd (get_value name (self, dest)) = Raise err ->
  fst (get_value name (self, dest)) = (self, dest).
Proof.
  rewrite get_value_cases.
  destruct (name =? "storage")%string.
  - now destruct (storage self).
  - destruct (name =? "discharge")%string; [| reflexivity].
    destruct (discharge self); [| reflexivity].
    destruct (timestep_size self); [| reflexivity].
    now destruct (truediv _ _).
Qed.

Lemma get_value_length (name : string) (self : PitmanBmi) (dest : ndarray) :
  length (snd (fst (get_value name (self, dest)))) = length dest.
Proof.
  rewrite get_value_cases.
  destruct (name =? "storage")%string.
  - destruct (storage self); cbn [fst snd]; now rewrite ?length_map.
  - destruct (name =? "discharge")%string; [| reflexivity].
    destruct (discharge self); [| reflexivity].
    destruct (timestep_size self); [| reflexivity].
    destruct (truediv _ _); cbn [fst snd]; now rewrite ?length_map.
Qed.

(** What [get_value] returns is the content of [dest] after the call. *)
Lemma get_value_returns_dest (name : string) (self : PitmanBmi)
    (dest out : ndarray) :
  snd (get_value name (self, dest)) = Ok out ->
  snd (fst (get_value name (self, dest))) = out.
Proof.
  rewrite get_value_cases.
  destruct (name =? "storage")%string.
  - destruct (storage self); cbn [fst snd]; congruence.
  - destruct (name =? "discharge")%string; [| discriminate].
    destruct (discharge self); [| discriminate].
    destruct (timestep_size self); [| discriminate].
    destruct (truediv _ _); cbn [fst snd]; congruence.
Qed.

Lemma set_value_cases (name : string) (src : ndarray) (self : PitmanBmi) :
  set_value name src self =
  if (name =? "storage")%string then
    match src with
    | v :: _ => (set_storage (Np v) self, Ok tt)
    | [] => (self, Raise IndexError)
    end
  else (self, Raise (ValueError ("Cannot set value of var " ++ name))).
Proof.
  unfold set_value.
  destruct (name =? "storage")%string; [| reflexivity].
  now destruct src.
Qed.

Lemma set_value_atomic (name : string) (src : ndarray) (self : PitmanBmi)
    (err : exn) :
  snd (set_value name src self) = Raise err ->
  fst (set_value name src self) = self.
Proof.
  rewrite set_value_cases.
  destruct (name =? "storage")%string; [| reflexivity].
  now destruct src.
Qed.

Lemma get_var_units_returns_iff (name : string) (self : PitmanBmi) :
  (exists u, snd (get_var_units name self) = Ok u) <->
  name = "storage"%string \/ name = "discharge"%string.
Proof.
  unfold get_var_units.
  destruct (String.eqb_spec name "storage") as [-> | Hs].
  - split; [now left | now exists "m"%string].
  - destruct (String.eqb_spec name "discharge") as [-> | Hd].
    + split; [now right | now exists "m d-1"%string].
    + split; [intros [u Hu]; discriminate | intros [? | ?]; congruence].
Qed.


Lemma get_var_units_unknown_iff (name : string) (self : PitmanBmi) :
  snd (get_var_units name self) =
    Raise (ValueError ("Unknown variable " ++ name)) <->
  name <> "storage"%string /\ name <> "discharge"%string.
Proof.
  unfold get_var_units.
  destruct (String.eqb_spec name "storage") as [-> | Hs].
  - split; [discriminate | intros [H _]; congruence].
  - destruct (String.eqb_spec name "discharge") as [-> | Hd].
    + split; [discriminate | intros [_ H]; congruence].
    + split; [now split | reflexivity].
Qed.

(** [get_value] rejects a name as unknown exactly when it is neither
    ["storage"] nor ["discharge"]. *)
Lemma get_value_unknown_iff (name : string) (self : PitmanBmi)
    (dest : ndarray) :
  snd (get_value name (self, dest)) =
    Raise (ValueError ("Unknown variable " ++ name)) <->
  name <> "storage"%string /\ name <> "discharge"%string.
Proof.
  rewrite get_value_cases.
  destruct (String.eqb_spec name "storage") as [-> | Hs].
  - split; [| intros [H _]; congruence].
    destruct (storage self); discriminate.
  - destruct (String.eqb_spec name "discharge") as [-> | Hd].
    + split; [| intros [_ H]; congruence].
      destruct (discharge self); [| discriminate].
      destruct (timestep_size self); [| discriminate].
      unfold truediv.
      destruct (is_python _ && is_python _ && _); discriminate.
    + split; [now split | reflexivity].
Qed.

Lemma get_value_storage_returns_iff (self : PitmanBmi) (dest : ndarray) :
  (exists out, snd (get_value "storage" (self, dest)) = Ok out) <->
  is_Some (storage self).
Proof.
  rewrite get_value_cases. cbn [String.eqb Ascii.eqb Bool.eqb].
  destruct (storage self) as [s |].
  - split; [now exists s | eexists; reflexivity].
  - split; [intros [out H]; discriminate | intros [s H]; discriminate].
Qed.

Lemma get_value_discharge_returns_iff (self : PitmanBmi) (dest : ndarray) :
  (exists out, snd (get_value "discharge" (self, dest)) = Ok out) <->
  exists d dt : num,
    discharge self = Some d /\ timestep_size self = Some dt /\
    is_python d && is_python dt && (value (day_fraction dt) =? 0)%float
    = false.
Proof.
  destruct (discharge self) as [d |] eqn:Hd.
  - destruct (timestep_size self) as [dt |] eqn:Hdt.
    + rewrite (get_value_discharge self dest d dt Hd Hdt).
      destruct (is_python d && is_python dt
                && (value (day_fraction dt) =? 0)%float) eqn:Hzero.
      * split; [intros [out H]; discriminate |].
        intros (d' & dt' & [= <-] & [= <-] & H). congruence.
      * split; [| eexists; reflexivity].
        intros _. now exists d, dt.
    + rewrite get_value_cases, Hd, Hdt. cbn [String.eqb Ascii.eqb Bool.eqb].
      split; [intros [out H]; discriminate |].
      intros (d' & dt' & _ & H & _). discriminate H.
  - rewrite get_value_cases, Hd. cbn [String.eqb Ascii.eqb Bool.eqb].
    split; [intros [out H]; discriminate |].
    intros (d' & dt' & H & _). discriminate H.
Qed.

Lemma set_value_returns_iff (name : string) (src : ndarray)
    (self : PitmanBmi) :
  snd (set_value name src self) = Ok tt <->
  name = "storage"%string /\ src <> [].
Proof.
  rewrite set_value_cases.
  destruct (String.eqb_spec name "storage") as [-> | Hns].
  - destruct src; split; easy.
  - split; [discriminate | intros [? _]; congruence].
Qed.

(** The reported discharge depends on the discharge and the step duration
    alone. *)
Lemma get_value_discharge_reads (a b : PitmanBmi) (dest : ndarray) :
  discharge a = discharge b -> timestep_size a = timestep_size b ->
  snd (get_value "discharge" (a, dest)) =
  snd (get_value "discharge" (b, dest)).
Proof.
  intros Hd Hdt. rewrite !get_value_cases, Hd, Hdt.
  cbn [String.eqb Ascii.eqb Bool.eqb].
  destruct (discharge b); [| reflexivity].
  destruct (timestep_size b); [| reflexivity].
  now destruct (truediv _ _).
Qed.

(** ** Initializing again *)

Lemma initialized_leakiness (cfg : gmap string pyval) (pr : DataArray)
    (t0 t1 : Z) (a b : PitmanBmi) :
  leakiness a = leakiness b ->
  initialized cfg pr t0 t1 a = initialized cfg pr t0 t1 b.
Proof. intros H. unfold initialized. now rewrite H. Qed.

Lemma initialize_again
    (read_config : string -> result (gmap string pyval))
    (load_var : pyval -> string -> result DataArray)
    (config_file : string) (self self1 other : PitmanBmi) :
  initialize read_config load_var config_file self = (self1, Ok tt) ->
  leakiness other = leakiness self ->
  initialize read_config load_var config_file other = (self1, Ok tt).
Proof.
  intros Hinit Hleak.
  destruct (initialize_state read_config load_var config_file self self1 tt
              Hinit)
    as (cfg & file & pr & t0 & t1 & Hcfg & Hfile & Hpr & Ht0 & Ht1 & Hkeys
        & ->).
  rewrite (initialized_leakiness cfg pr t0 t1 self other (eq_sym Hleak)).
  now apply initialize_returns with (file := file).
Qed.

Lemma initialized_runnable (cfg : gmap string pyval) (pr : DataArray)
    (t0 t1 : Z) (k : num) (self : PitmanBmi) :
  runnable (assign_leakiness k (initialized cfg pr t0 t1 self)).
Proof.
  exists 0, (Z.of_nat (length pr)), pr. eexists _, _, k.
  unfold initialized. obj_simpl. rewrite time_coord_length.
  repeat split; lia.
Qed.

Lemma getitem_Ok_nth_error {A} (a : list A) (i : Z) (x : A) :
  0 <= i -> getitem a i = Ok x -> nth_error a (Z.to_nat i) = Some x.
Proof.
  intros Hi. unfold getitem.
  destruct (Z.ltb_spec i 0) as [Hneg | _]; [lia |].
  destruct ((0 <=? i) && (i <? Z.of_nat (length a))); [| discriminate].
  destruct (nth_error a (Z.to_nat i)); [congruence | discriminate].
Qed.

Lemma getitem_first_two {A} (a : list A) (x y : A) :
  getitem a 0 = Ok x -> getitem a 1 = Ok y ->
  exists rest, a = x :: y :: rest.
Proof.
  intros Hx Hy.
  apply getitem_Ok_nth_error in Hx; [| lia].
  apply getitem_Ok_nth_error in Hy; [| lia].
  destruct a as [| x' [| y' rest]]; try discriminate.
  cbn in Hx, Hy. injection Hx as ->. injection Hy as ->. now exists rest.
Qed.


(** ** The worked run, again *)

Lemma demo_config_complete :
  Forall (fun key => is_Some (demo_config !! key)) pitman_keys.
Proof.
  apply Forall_pitman_keys. repeat split; vm_compute; eexists; reflexivity.
Qed.

Lemma demo_initialize :
  initialize demo_read_config demo_load_var "pitman.yaml" new_instance =
    (initialized demo_config demo_forcing 0 86400000000000 new_instance,
     Ok tt).
Proof.
  apply (initialize_returns demo_read_config demo_load_var "pitman.yaml"
           new_instance demo_config (PyStr "pr.nc") demo_forcing
           0 86400000000000);
    [ reflexivity | vm_compute; reflexivity | reflexivity
    | reflexivity | reflexivity | exact demo_config_complete ].
Qed.

Lemma distant_initialize :
  initialize demo_read_config distant_load_var "pitman.yaml" new_instance =
    (initialized demo_config distant_forcing
       (-9000000000000000000) 9000000000000000000 new_instance,
     Ok tt).
Proof.
  apply (initialize_returns demo_read_config distant_load_var "pitman.yaml"
           new_instance demo_config (PyStr "pr.nc") distant_forcing
           (-9000000000000000000) 9000000000000000000);
    [ reflexivity | vm_compute; reflexivity | reflexivity
    | reflexivity | reflexivity | exact demo_config_complete ].
Qed.

Lemma demo_running_runnable : runnable demo_running.
Proof.
  exists 1, 3, demo_forcing, (Np 9), (Np 86400), (Py (1 / 10)).
  repeat split; try reflexivity; lia.
Qed.

(** ** The properties *)

(** X1.  [initialize] returns exactly when the configuration can be read,
    names a precipitation file and all twelve parameters, and the forcing
    loads with at least two time points. *)
Theorem X1_initialize_returns_iff
    (read_config : string -> result (gmap string pyval))
    (load_var : pyval -> string -> result DataArray)
    (config_file : string) (self : PitmanBmi) :
  (exists self' : PitmanBmi,
     initialize read_config load_var config_file self = (self', Ok tt)) <->
  (exists (cfg : gmap string pyval) (file : pyval) (pr : DataArray),
     read_config config_file = Ok cfg /\
     cfg !! "precipitation_file" = Some file /\
     load_var file "pr" = Ok pr /\
     (2 <= length pr)%nat /\
     Forall (fun key => is_Some (cfg !! key)) pitman_keys).
Proof.
  split.
  - intros [self' Hinit].
    destruct (initialize_state read_config load_var config_file self self' tt
                Hinit)
      as (cfg & file & pr & t0 & t1 & Hcfg & Hfile & Hpr & _ & Ht1 & Hkeys
          & _).
    exists cfg, file, pr. repeat split; try assumption.
    apply getitem_Ok_bound in Ht1; [| lia].
    rewrite time_coord_length in Ht1. lia.
  - intros (cfg & file & pr & Hcfg & Hfile & Hpr & Hlen & Hkeys).
    destruct (getitem_in_bounds (time_coord pr) 0) as [t0 Ht0];
      [rewrite time_coord_length; lia |].
    destruct (getitem_in_bounds (time_coord pr) 1) as [t1 Ht1];
      [rewrite time_coord_length; lia |].
    eexists.
    exact (initialize_returns read_config load_var config_file self
             cfg file pr t0 t1 Hcfg Hfile Hpr Ht0 Ht1 Hkeys).
Qed.

Lemma X1_witness :
  exists self' : PitmanBmi,
    initialize demo_read_config demo_load_var "pitman.yaml" demo_running =
      (self', Ok tt).
Proof.
  apply (X1_initialize_returns_iff demo_read_config demo_load_var
           "pitman.yaml" demo_running).
  exists demo_config, (PyStr "pr.nc"), demo_forcing.
  split; [reflexivity |]. split; [vm_compute; reflexivity |].
  split; [reflexivity |]. split; [cbn; lia | exact demo_config_complete].
Defined.

(** X2.  When [initialize] has returned, every attribute but [leakiness]
    is determined by the configuration and the forcing: the loaded data,
    step index 0, one step per time point, storage and discharge 0, each
    Pitman attribute holding the configuration entry of its key, and the
    step duration taken from the first two time stamps: their difference
    in nanoseconds, wrapped to 64 bits, divided by [1e9] in binary64, and
    [nan] when a stamp is missing or the difference wraps onto [NaT]. *)
Theorem X2_initialize_state
    (read_config : string -> result (gmap string pyval))
    (load_var : pyval -> string -> result DataArray)
    (config_file : string) (self self' : PitmanBmi) :
  initialize read_config load_var config_file self = (self', Ok tt) ->
  exists (cfg : gmap string pyval) (file : pyval) (pr : DataArray)
         (t0 t1 : Z) (later : list Z),
    read_config config_file = Ok cfg /\
    cfg !! "precipitation_file" = Some file /\
    load_var file "pr" = Ok pr /\
    time_coord pr = t0 :: t1 :: later /\
    self' = initialized cfg pr t0 t1 self /\
    timestep_size self' =
      Some (if (t1 =? NaT) || (t0 =? NaT) || (wrap64 (t1 - t0) =? NaT)
            then Np nan
            else Np (float_of_int (wrap64 (t1 - t0))
                     / float_of_int 1000000000)) /\
    end_timestep self' = Some (Z.of_nat (length pr)).
Proof.
  intros Hinit.
  destruct (initialize_state read_config load_var config_file self self' tt
              Hinit)
    as (cfg & file & pr & t0 & t1 & Hcfg & Hfile & Hpr & Ht0 & Ht1 & _ & ->).
  destruct (getitem_first_two _ _ _ Ht0 Ht1) as [later Hlater].
  exists cfg, file, pr, t0, t1, later.
  split; [exact Hcfg |]. split; [exact Hfile |]. split; [exact Hpr |].
  split; [exact Hlater |]. split; [reflexivity |]. split.
  - unfold initialized. obj_simpl. now rewrite step_duration_cases.
  - unfold initialized. obj_simpl. now rewrite time_coord_length.
Qed.

Lemma X2_witness :
  exists self' : PitmanBmi,
    initialize demo_read_config distant_load_var "pitman.yaml" new_instance =
      (self', Ok tt) /\
    timestep_size self' =
      Some (Np (float_of_int (-446744073709551616)
                / float_of_int 1000000000)) /\
    end_timestep self' = Some 2.
Proof.
  destruct (X2_initialize_state demo_read_config distant_load_var
              "pitman.yaml" new_instance _ distant_initialize)
    as (cfg & file & pr & t0 & t1 & later & _ & _ & Hpr & Htime & _ & Hdt
        & Hend).
  injection Hpr as <-. injection Htime as <- <- _.
  eexists. split; [exact distant_initialize |].
  split; [exact Hdt | exact Hend].
Defined.

(** X3.  A failure while loading is passed on unchanged and leaves a
    trace only in [config]: an exception of [read_config] leaves the
    instance as it was; a configuration without ["precipitation_file"]
    raises [KeyError] for that key, and an exception of [load_var] is
    passed on, both with nothing but [config] assigned. *)
Theorem X3_initialize_loading_errors
    (read_config : string -> result (gmap string pyval))
    (load_var : pyval -> string -> result DataArray)
    (config_file : string) (self : PitmanBmi) :
  (forall err : exn,
     read_config config_file = Raise err ->
     initialize read_config load_var config_file self = (self, Raise err)) /\
  (forall cfg : gmap string pyval,
     read_config config_file = Ok cfg ->
     cfg !! "precipitation_file" = None ->
     initialize read_config load_var config_file self =
       (set_config cfg self, Raise (KeyError "precipitation_file"))) /\
  (forall (cfg : gmap string pyval) (file : pyval) (err : exn),
     read_config config_file = Ok cfg ->
     cfg !! "precipitation_file" = Some file ->
     load_var file "pr" = Raise err ->
     initialize read_config load_var config_file self =
       (set_config cfg self, Raise err)).
Proof.
  split; [intros err; apply initialize_read_config_raises |].
  split; [intros cfg; apply initialize_no_precipitation_file |].
  intros cfg file err. apply initialize_load_var_raises.
Qed.

Lemma X3_witness :
  initialize (fun _ => Raise (ExternalError "unreadable")) demo_load_var
    "pitman.yaml" demo_running =
    (demo_running, Raise (ExternalError "unreadable")) /\
  initialize (fun _ => Ok ∅) demo_load_var "pitman.yaml" demo_running =
    (set_config ∅ demo_running, Raise (KeyError "precipitation_file")) /\
  initialize demo_read_config (fun _ _ => Raise (ExternalError "no data"))
    "pitman.yaml" demo_running =
    (set_config demo_config demo_running, Raise (ExternalError "no data")).
Proof.
  split; [| split].
  - apply (X3_initialize_loading_errors
             (fun _ => Raise (ExternalError "unreadable")) demo_load_var
             "pitman.yaml" demo_running).
    reflexivity.
  - apply (X3_initialize_loading_errors (fun _ => Ok ∅) demo_load_var
             "pitman.yaml" demo_running); reflexivity.
  - apply (X3_initialize_loading_errors demo_read_config
             (fun _ _ => Raise (ExternalError "no data"))
             "pitman.yaml" demo_running)
      with (file := PyStr "pr.nc");
      [reflexivity | vm_compute; reflexivity | reflexivity].
Defined.

(** X4.  A forcing series with fewer than two time points makes
    [initialize] raise [IndexError] when it computes the step duration:
    [config], [precipitation] and [time_data] are assigned by then, and
    nothing else is. *)
Theorem X4_initialize_short_series
    (read_config : string -> result (gmap string pyval))
    (load_var : pyval -> string -> result DataArray)
    (config_file : string) (self : PitmanBmi) (cfg : gmap string pyval)
    (file : pyval) (pr : DataArray) :
  read_config config_file = Ok cfg ->
  cfg !! "precipitation_file" = Some file ->
  load_var file "pr" = Ok pr ->
  (length pr < 2)%nat ->
  initialize read_config load_var config_file self =
    (set_time_data (time_coord pr)
       (set_precipitation pr (set_config cfg self)),
     Raise IndexError).
Proof. apply initialize_short_series. Qed.

Lemma X4_witness :
  initialize demo_read_config (fun _ _ => Ok [(0, 1%float)]) "pitman.yaml"
    new_instance =
    (set_time_data (time_coord [(0, 1%float)])
       (set_precipitation [(0, 1%float)]
          (set_config demo_config new_instance)),
     Raise IndexError).
Proof.
  apply (X4_initialize_short_series demo_read_config
           (fun _ _ => Ok [(0, 1%float)]) "pitman.yaml" new_instance
           demo_config (PyStr "pr.nc") [(0, 1%float)]);
    [reflexivity | vm_compute; reflexivity | reflexivity | cbn; lia].
Defined.
(** X5.  When the forcing is loaded but a Pitman parameter is missing,
    [initialize] raises [KeyError] for the first missing key in the order
    it reads them; the state of the recurrence is assigned by then
    (forcing, step duration, step index 0, number of steps, storage 0,
    discharge 0). *)
Theorem X5_initialize_missing_parameter
    (read_config : string -> result (gmap string pyval))
    (load_var : pyval -> string -> result DataArray)
    (config_file : string) (self : PitmanBmi) (cfg : gmap string pyval)
    (file : pyval) (pr : DataArray) :
  read_config config_file = Ok cfg ->
  cfg !! "precipitation_file" = Some file ->
  load_var file "pr" = Ok pr ->
  (2 <= length pr)%nat ->
  ~ Forall (fun key => is_Some (cfg !! key)) pitman_keys ->
  exists (self' : PitmanBmi) (before : list string) (key : string)
         (after : list string),
    initialize read_config load_var config_file self =
      (self', Raise (KeyError key)) /\
    pitman_keys = before ++ key :: after /\
    Forall (fun key' => is_Some (cfg !! key')) before /\
    cfg !! key = None /\
    precipitation self' = Some pr /\
    (exists dt, timestep_size self' = Some dt) /\
    current_timestep self' = Some 0 /\
    end_timestep self' = Some (Z.of_nat (length pr)) /\
    storage self' = Some (int 0) /\
    discharge self' = Some (int 0) /\
    leakiness self' = leakiness self.
Proof.
  intros Hcfg Hfile Hpr Hlen Hkeys.
  destruct (getitem_in_bounds (time_coord pr) 0) as [t0 Ht0];
    [rewrite time_coord_length; lia |].
  destruct (getitem_in_bounds (time_coord pr) 1) as [t1 Ht1];
    [rewrite time_coord_length; lia |].
  pose proof (initialize_missing_parameter read_config load_var config_file
                self cfg file pr t0 t1 Hcfg Hfile Hpr Ht0 Ht1 Hkeys) as H.
  unfold outcome in H.
  destruct (initialize read_config load_var config_file self) as [self' r].
  cbn [fst snd] in H.
  destruct H as ((before & key & after & Hsplit & Hbefore & Hkey & ->)
                 & Hp & Hdt & Hc & He & Hs & Hd & Hk).
  exists self', before, key, after.
  split; [reflexivity |]. split; [exact Hsplit |].
  split; [exact Hbefore |]. split; [exact Hkey |].
  split; [exact Hp |]. split; [eexists; exact Hdt |].
  now repeat split.
Qed.

Lemma X5_witness :
  exists (self' : PitmanBmi) (before : list string) (key : string)
         (after : list string),
    initialize (fun _ => Ok (delete "maximum groundwater runoff" demo_config))
      demo_load_var "pitman.yaml" new_instance =
      (self', Raise (KeyError key)) /\
    pitman_keys = before ++ key :: after /\
    Forall
      (fun key' =>
         is_Some (delete "maximum groundwater runoff" demo_config !! key'))
      before /\
    delete "maximum groundwater runoff" demo_config !! key = None /\
    precipitation self' = Some demo_forcing /\
    (exists dt, timestep_size self' = Some dt) /\
    current_timestep self' = Some 0 /\
    end_timestep self' = Some (Z.of_nat (length demo_forcing)) /\
    storage self' = Some (int 0) /\
    discharge self' = Some (int 0) /\
    leakiness self' = leakiness new_instance.
Proof.
  apply (X5_initialize_missing_parameter
           (fun _ => Ok (delete "maximum groundwater runoff" demo_config))
           demo_load_var "pitman.yaml" new_instance
           (delete "maximum groundwater runoff" demo_config)
           (PyStr "pr.nc") demo_forcing);
    [reflexivity | vm_compute; reflexivity | reflexivity | cbn; lia |].
  intros H. apply Forall_pitman_keys in H.
  destruct H as (_ & _ & _ & _ & _ & _ & _ & [v Hv] & _).
  vm_compute in Hv. discriminate Hv.
Defined.

(** X6.  [initialize] starts over: on any instance with the same
    [leakiness] it produces the very instance it produced before, whatever
    else that instance holds.  In particular, initializing again after a
    run of any length gives back the freshly initialized instance. *)
Theorem X6_initialize_again
    (read_config : string -> result (gmap string pyval))
    (load_var : pyval -> string -> result DataArray)
    (config_file : string) (self self1 : PitmanBmi) :
  initialize read_config load_var config_file self = (self1, Ok tt) ->
  (forall other : PitmanBmi,
     leakiness other = leakiness self ->
     initialize read_config load_var config_file other = (self1, Ok tt)) /\
  (forall n : nat,
     initialize read_config load_var config_file
       (fst (repeat_update n self1)) = (self1, Ok tt)).
Proof.
  intros Hinit. split.
  - intros other Hleak.
    exact (initialize_again read_config load_var config_file self self1 other
             Hinit Hleak).
  - intros n.
    apply (initialize_again read_config load_var config_file self self1);
      [exact Hinit |].
    destruct (repeat_update_keeps_inputs n)
      as (_ & _ & _ & _ & _ & Hleak & _).
    rewrite (Hleak self1).
    pose proof (initialize_leakiness read_config load_var config_file self)
      as Hl.
    rewrite Hinit in Hl. exact Hl.
Qed.

Lemma X6_witness :
  initialize demo_read_config demo_load_var "pitman.yaml"
    (fst (repeat_update 2
            (initialized demo_config demo_forcing 0 86400000000000
               new_instance))) =
    (initialized demo_config demo_forcing 0 86400000000000 new_instance,
     Ok tt).
Proof.
  apply (X6_initialize_again demo_read_config demo_load_var "pitman.yaml"
           new_instance _ demo_initialize).
Defined.
(** X7.  On a runnable instance [update] never raises and leaves a
    runnable instance; a run of [n] calls returns, advances the step index
    by [n] but not beyond [end_timestep], and leaves [end_timestep]
    alone. *)
Theorem X7_run_on_runnable (self : PitmanBmi) (c e : Z) (n : nat) :
  runnable self ->
  current_timestep self = Some c -> end_timestep self = Some e ->
  (snd (update self) = Ok tt /\ runnable (fst (update self))) /\
  snd (repeat_update n self) = Ok tt /\
  runnable (fst (repeat_update n self)) /\
  current_timestep (fst (repeat_update n self)) =
    Some (Z.min (c + Z.of_nat n) e) /\
  end_timestep (fst (repeat_update n self)) = Some e.
Proof.
  intros Hrun Hc He. split.
  - exact (update_runnable self Hrun).
  - exact (repeat_update_runnable n self c e Hrun Hc He).
Qed.

Lemma X7_witness :
  snd (repeat_update 7 demo_running) = Ok tt /\
  current_timestep (fst (repeat_update 7 demo_running)) =
    Some (Z.min (1 + Z.of_nat 7) 3).
Proof.
  destruct (X7_run_on_runnable demo_running 1 3 7 demo_running_runnable
              eq_refl eq_refl)
    as (_ & Hok & _ & Hc & _).
  split; [exact Hok | exact Hc].
Defined.

(** X8.  After [initialize] has returned and the caller has assigned a
    leak coefficient, the instance is runnable: a run of any length
    returns, and the step index after [m] calls is [m], capped at the
    number of time points of the forcing (at least two). *)
Theorem X8_run_after_initialize
    (read_config : string -> result (gmap string pyval))
    (load_var : pyval -> string -> result DataArray)
    (config_file : string) (self self1 : PitmanBmi) (k : num) (m : nat) :
  initialize read_config load_var config_file self = (self1, Ok tt) ->
  exists e : Z,
    end_timestep self1 = Some e /\ 2 <= e /\
    runnable (assign_leakiness k self1) /\
    snd (repeat_update m (assign_leakiness k self1)) = Ok tt /\
    current_timestep (fst (repeat_update m (assign_leakiness k self1))) =
      Some (Z.min (Z.of_nat m) e).
Proof.
  intros Hinit.
  destruct (initialize_state read_config load_var config_file self self1 tt
              Hinit)
    as (cfg & file & pr & t0 & t1 & _ & _ & _ & _ & Ht1 & _ & ->).
  apply getitem_Ok_bound in Ht1; [| lia].
  pose proof (initialized_runnable cfg pr t0 t1 k self) as Hrun.
  destruct (repeat_update_runnable m _ 0 (Z.of_nat (length (time_coord pr)))
              Hrun eq_refl eq_refl)
    as (Hok & _ & Hc & _).
  exists (Z.of_nat (length (time_coord pr))).
  split; [reflexivity |]. split; [lia |]. split; [exact Hrun |].
  split; [exact Hok | exact Hc].
Qed.

Lemma X8_witness :
  exists e : Z,
    end_timestep
      (initialized demo_config demo_forcing 0 86400000000000 new_instance) =
      Some e /\ 2 <= e /\
    runnable
      (assign_leakiness (Py (1 / 10))
         (initialized demo_config demo_forcing 0 86400000000000
            new_instance)) /\
    snd (repeat_update 5
           (assign_leakiness (Py (1 / 10))
              (initialized demo_config demo_forcing 0 86400000000000
                 new_instance))) = Ok tt /\
    current_timestep
      (fst (repeat_update 5
              (assign_leakiness (Py (1 / 10))
                 (initialized demo_config demo_forcing 0 86400000000000
                    new_instance)))) =
      Some (Z.min (Z.of_nat 5) e).
Proof.
  exact (X8_run_after_initialize demo_read_config demo_load_var
           "pitman.yaml" new_instance _ (Py (1 / 10)) 5
           demo_initialize).
Defined.

(** X9.  Neither [update], nor a run of any length, nor [set_value]
    changes what [initialize] loaded or derived, on any path: the
    configuration, the forcing, the time coordinate, the step duration, the
    number of steps, the leak coefficient and the twelve Pitman
    parameters. *)
Theorem X9_inputs_are_kept (n : nat) (name : string) (src : ndarray) :
  keeps_inputs update /\ keeps_inputs (repeat_update n) /\
  keeps_inputs (set_value name src).
Proof.
  split; [exact update_keeps_inputs |].
  split; [exact (repeat_update_keeps_inputs n) |].
  exact (set_value_keeps_inputs name src).
Qed.

(** X10.  [update] reads and writes only the step indices, storage,
    discharge, forcing, step duration and leak coefficient: on two
    instances that agree on these it ends the same way and leaves them in
    agreement, whatever their configuration, time coordinate and Pitman
    parameters; so does a run of any length. *)
Theorem X10_update_ignores_parameters (a b : PitmanBmi) (n : nat) :
  same_dynamics a b ->
  (snd (update a) = snd (update b) /\
   same_dynamics (fst (update a)) (fst (update b))) /\
  snd (repeat_update n a) = snd (repeat_update n b) /\
  same_dynamics (fst (repeat_update n a)) (fst (repeat_update n b)).
Proof.
  intros Hab. split.
  - exact (update_same_dynamics a b Hab).
  - exact (repeat_update_same_dynamics n a b Hab).
Qed.

Lemma X10_witness :
  snd (repeat_update 2 demo_running) =
  snd (repeat_update 2
         (set_GL (PyStr "none") (set_PI (PyNum (int 99))
            (set_config ∅ demo_running)))) /\
  same_dynamics
    (fst (repeat_update 2 demo_running))
    (fst (repeat_update 2
            (set_GL (PyStr "none") (set_PI (PyNum (int 99))
               (set_config ∅ demo_running))))).
Proof.
  apply (X10_update_ignores_parameters demo_running
           (set_GL (PyStr "none") (set_PI (PyNum (int 99))
              (set_config ∅ demo_running))) 2).
  repeat split.
Defined.

(** X11.  When [update] raises, discharge and step index are what they
    were; unless the exception is the [AttributeError] for [leakiness],
    the whole instance is. *)
Theorem X11_update_raise (self : PitmanBmi) (err : exn) :
  snd (update self) = Raise err ->
  discharge (fst (update self)) = discharge self /\
  current_timestep (fst (update self)) = current_timestep self /\
  (err <> AttributeError "leakiness" -> fst (update self) = self).
Proof. apply update_raise. Qed.

Lemma X11_witness :
  discharge (fst (update new_instance)) = discharge new_instance /\
  current_timestep (fst (update new_instance)) =
    current_timestep new_instance /\
  (AttributeError "current_timestep" <> AttributeError "leakiness" ->
   fst (update new_instance) = new_instance).
Proof.
  apply (X11_update_raise new_instance (AttributeError "current_timestep")).
  reflexivity.
Defined.


(** X12.  A step that failed for want of a leak coefficient has already
    added the precipitation to the storage, and nothing else.  When the
    caller then assigns the coefficient and calls [update] again, the step
    is made from that storage: the precipitation of the step is counted
    twice.  The storage it leaves is
    [(s + p * dt + p * dt) - (s + p * dt + p * dt) * k * (dt / 24 / 3600)],
    every operation rounded to binary64 in this order. *)
Theorem X12_update_retry (self : PitmanBmi) (c e : Z) (pr : DataArray)
    (s p dt k : num) :
  current_timestep self = Some c -> end_timestep self = Some e -> c < e ->
  storage self = Some s -> precipitation self = Some pr -> isel pr c = Ok p ->
  timestep_size self = Some dt -> leakiness self = None ->
  exists self1 self2 : PitmanBmi,
    update self = (self1, Raise (AttributeError "leakiness")) /\
    storage self1 = Some (s + p * dt)%num /\
    discharge self1 = discharge self /\
    current_timestep self1 = Some c /\
    update (assign_leakiness k self1) = (self2, Ok tt) /\
    storage self2 =
      Some (s + p * dt + p * dt
            - (s + p * dt + p * dt) * k * (dt / int 24 / int 3600))%num /\
    current_timestep self2 = Some (c + 1).
Proof. apply update_retry. Qed.

Lemma X12_witness :
  exists self1 self2 : PitmanBmi,
    update
      (initialized demo_config demo_forcing 0 86400000000000 new_instance) =
      (self1, Raise (AttributeError "leakiness")) /\
    storage self1 = Some (Np 10) /\
    update (assign_leakiness (Py (1 / 10)) self1) = (self2, Ok tt) /\
    storage self2 = Some (Np 18) /\
    current_timestep self2 = Some (0 + 1).
Proof.
  destruct (X12_update_retry
              (initialized demo_config demo_forcing 0 86400000000000
                 new_instance)
              0 3 demo_forcing (int 0) (Np (10 / 86400))
              (Np 86400) (Py (1 / 10)))
    as (self1 & self2 & Hraise & Hs1 & _ & _ & Hupdate & Hs2 & Hc2);
    [reflexivity | reflexivity | lia | reflexivity | reflexivity
    | reflexivity | reflexivity | reflexivity |].
  exists self1, self2.
  split; [exact Hraise |].
  split; [rewrite Hs1; vm_compute; reflexivity |].
  split; [exact Hupdate |].
  split; [rewrite Hs2; vm_compute; reflexivity | exact Hc2].
Defined.


(** X14.  Rounding can drive the storage below zero.  With a storage of
    1.1, no precipitation and a leak that takes exactly the whole storage
    in one step (a coefficient of 1440 per day over a step of 60 seconds:
    [1440 * (60 / 24 / 3600)] is [1]), one [update] returns and leaves a
    negative storage, while the discharge is not negative. *)
Theorem X14_rounding_below_zero :
  exists (self' : PitmanBmi) (s' d' : num),
    (value (Py 1440 * day_fraction (Np 60))%num =? 1)%float = true /\
    update (set_storage (Np (11 / 10))
              (set_timestep_size (Np 60)
                 (assign_leakiness (Py 1440) seven_seconds))) =
      (self', Ok tt) /\
    storage self' = Some s' /\ discharge self' = Some d' /\
    (value s' <? 0)%float = true /\
    (0 <=? value d')%float = true.
Proof.
  eexists _, _, _.
  split; [vm_compute; reflexivity |].
  split; [vm_compute; reflexivity |].
  split; [reflexivity |]. split; [reflexivity |].
  split; vm_compute; reflexivity.
Qed.

(** X15.  Over [n] steps without precipitation the storage goes through
    the same map at every step, [s - s' * k * (dt / 24 / 3600)] with
    [s' = s + 0 * dt] and every operation rounded to binary64: it ends at
    the [n]-fold iterate of that map, and the step index has advanced by
    [n]. *)
Theorem X15_dry_run (n : nat) (self : PitmanBmi) (c e : Z)
    (pr : DataArray) (s dt k : num) :
  current_timestep self = Some c -> end_timestep self = Some e ->
  c + Z.of_nat n <= e ->
  precipitation self = Some pr ->
  (forall i, c <= i < c + Z.of_nat n -> isel pr i = Ok (Np 0)) ->
  storage self = Some s -> timestep_size self = Some dt ->
  leakiness self = Some k ->
  snd (repeat_update n self) = Ok tt /\
  storage (fst (repeat_update n self)) = Some (Nat.iter n (dry_step dt k) s) /\
  current_timestep (fst (repeat_update n self)) = Some (c + Z.of_nat n).
Proof. apply repeat_update_dry. Qed.

Lemma X15_witness :
  snd (repeat_update 2 demo_running) = Ok tt /\
  storage (fst (repeat_update 2 demo_running)) =
    Some (Nat.iter 2 (dry_step (Np 86400) (Py (1 / 10))) (Np 9)) /\
  current_timestep (fst (repeat_update 2 demo_running)) =
    Some (1 + Z.of_nat 2).
Proof.
  apply (X15_dry_run 2 demo_running 1 3 demo_forcing
           (Np 9) (Np 86400) (Py (1 / 10)));
    try reflexivity; try (cbn; lia).
  intros i Hi.
  assert (Hcase : i = 1 \/ i = 2) by (cbn in Hi; lia).
  destruct Hcase as [-> | ->]; reflexivity.
Defined.

(** The iterate has no closed form in binary64: three dry daily steps from
    a storage of 9 with a leak of one tenth end below
    [9 * (1 - 0.1) ^ 3]. *)
Example dry_run_rounds :
  (value (Nat.iter 3 (dry_step (Np 86400) (Py (1 / 10))) (Np 9)) <?
   9 * (1 - 1 / 10) * (1 - 1 / 10) * (1 - 1 / 10))%float = true.
Proof. vm_compute. reflexivity. Qed.

(** X16.  The accessors are all-or-nothing.  When [get_value] raises, the
    instance and [dest] are what they were; when it returns, what it
    returns is the content of [dest]; either way [dest] keeps its length
    and the instance is untouched.  When [set_value] raises, the instance
    is what it was; [set_value "storage"] on an empty [src] raises
    [IndexError]. *)
Theorem X16_accessors_all_or_nothing (name : string) (self : PitmanBmi)
    (dest src : ndarray) :
  (forall err : exn,
     snd (get_value name (self, dest)) = Raise err ->
     fst (get_value name (self, dest)) = (self, dest)) /\
  (forall out : ndarray,
     snd (get_value name (self, dest)) = Ok out ->
     snd (fst (get_value name (self, dest))) = out) /\
  length (snd (fst (get_value name (self, dest)))) = length dest /\
  fst (fst (get_value name (self, dest))) = self /\
  (forall err : exn,
     snd (set_value name src self) = Raise err ->
     fst (set_value name src self) = self) /\
  set_value "storage" [] self = (self, Raise IndexError).
Proof.
  split; [intros err; apply get_value_atomic |].
  split; [intros out; apply get_value_returns_dest |].
  split; [apply get_value_length |].
  split; [apply get_value_self |].
  split; [intros err; apply set_value_atomic | reflexivity].
Qed.

Lemma X16_witness :
  fst (get_value "bogus" (demo_running, [3%float])) =
    (demo_running, [3%float]) /\
  fst (set_value "discharge" [4%float] demo_running) = demo_running.
Proof.
  destruct (X16_accessors_all_or_nothing "bogus" demo_running
              [3%float] [4%float])
    as (Hget & _).
  destruct (X16_accessors_all_or_nothing "discharge" demo_running
              [3%float] [4%float])
    as (_ & _ & _ & _ & Hset & _).
  split.
  - apply (Hget (ValueError "Unknown variable bogus")). reflexivity.
  - apply (Hset (ValueError "Cannot set value of var discharge")).
    reflexivity.
Defined.

(** X17.  The three accessors agree on the names.  [get_value] and
    [get_var_units] reject a name as unknown exactly when it is neither
    ["storage"] nor ["discharge"], and [get_var_units] returns for these
    two.  [get_value "storage"] returns exactly when the storage is set;
    [get_value "discharge"] returns exactly when discharge and step
    duration are set and the division does not raise, which it does when
    both are Python numbers and the day fraction is a zero.  [set_value]
    returns exactly for ["storage"] with a non-empty [src].  And every name
    listed by [get_output_var_names] is known to [get_value], has units,
    and cannot be set. *)
Theorem X17_accessor_names (name : string) (self : PitmanBmi)
    (dest src : ndarray) :
  (snd (get_value name (self, dest)) =
     Raise (ValueError ("Unknown variable " ++ name)) <->
   name <> "storage"%string /\ name <> "discharge"%string) /\
  (snd (get_var_units name self) =
     Raise (ValueError ("Unknown variable " ++ name)) <->
   name <> "storage"%string /\ name <> "discharge"%string) /\
  ((exists u, snd (get_var_units name self) = Ok u) <->
   name = "storage"%string \/ name = "discharge"%string) /\
  ((exists out, snd (get_value "storage" (self, dest)) = Ok out) <->
   is_Some (storage self)) /\
  ((exists out, snd (get_value "discharge" (self, dest)) = Ok out) <->
   exists d dt : num,
     discharge self = Some d /\ timestep_size self = Some dt /\
     is_python d && is_python dt
     && (value (dt / int 24 / int 3600)%num =? 0)%float = false) /\
  (snd (set_value name src self) = Ok tt <->
   name = "storage"%string /\ src <> []) /\
  (exists names : list string,
     get_output_var_names self = (self, Ok names) /\
     Forall
       (fun out_name =>
          snd (get_value out_name (self, dest)) <>
            Raise (ValueError ("Unknown variable " ++ out_name)) /\
          (exists u, snd (get_var_units out_name self) = Ok u) /\
          snd (set_value out_name src self) <> Ok tt)
       names).
Proof.
  split; [exact (get_value_unknown_iff name self dest) |].
  split; [exact (get_var_units_unknown_iff name self) |].
  split; [exact (get_var_units_returns_iff name self) |].
  split; [exact (get_value_storage_returns_iff self dest) |].
  split; [exact (get_value_discharge_returns_iff self dest) |].
  split; [exact (set_value_returns_iff name src self) |].
  exists ["discharge"%string]. split; [reflexivity |].
  apply Forall_cons. split; [| apply Forall_nil_2].
  split; [rewrite get_value_unknown_iff; intros [_ H]; now apply H |].
  split; [apply get_var_units_returns_iff; now right |].
  rewrite set_value_returns_iff. intros [H _]. discriminate H.
Qed.

(** X18.  Overriding the storage does not touch the discharge:
    [get_value "discharge"] reports after [set_value "storage"] what it
    reported before, until the next [update]. *)
Theorem X18_discharge_is_stale (src : ndarray) (self : PitmanBmi)
    (dest : ndarray) :
  snd (get_value "discharge" (fst (set_value "storage" src self), dest)) =
  snd (get_value "discharge" (self, dest)).
Proof.
  apply get_value_discharge_reads; rewrite set_value_cases;
    cbn [String.eqb Ascii.eqb Bool.eqb]; now destruct src.
Qed.

(** X19.  A completed step leaves NumPy numbers in storage and discharge,
    whatever kind of number the instance held before: the forcing value
    [update] adds is one.  So once a step has been made,
    [get_value "discharge"] cannot raise [ZeroDivisionError]: it returns,
    with [inf] or [nan] in the cells when the day fraction is a zero. *)
Theorem X19_numpy_after_step (self : PitmanBmi) (c e : Z) (pr : DataArray)
    (s p k dt : num) (dest : ndarray) :
  current_timestep self = Some c -> end_timestep self = Some e -> c < e ->
  storage self = Some s -> precipitation self = Some pr -> isel pr c = Ok p ->
  leakiness self = Some k -> timestep_size self = Some dt ->
  exists (self' : PitmanBmi) (s' d' : float64),
    update self = (self', Ok tt) /\
    storage self' = Some (Np s') /\
    discharge self' = Some (Np d') /\
    get_value "discharge" (self', dest) =
      ((self', map (fun _ => (d' / value (dt / int 24 / int 3600)%num)%float)
                 dest),
       Ok (map (fun _ => (d' / value (dt / int 24 / int 3600)%num)%float)
             dest)).
Proof.
  intros Hc He Hlt Hs Hpr Hp Hk Hdt.
  pose proof (isel_numpy pr c p Hp) as Hnp.
  destruct p as [p | p]; [discriminate Hnp |].
  eexists _, _, _. split.
  - exact (update_step self c e pr s (Np p) k dt Hc He Hlt Hs Hpr Hp Hk Hdt).
  - obj_simpl.
    split; [destruct s, dt, k; reflexivity |].
    split; [destruct s, dt, k; reflexivity |].
    rewrite (get_value_discharge_numpy _ dest
               (Np (value (s + Np p * dt) * value k)) dt);
      [ now rewrite value_quotient
      | obj_simpl; destruct s, dt, k; reflexivity
      | obj_simpl; exact Hdt
      | reflexivity ].
Qed.

Lemma X19_witness :
  exists (self' : PitmanBmi) (s' d' : float64),
    update demo_model = (self', Ok tt) /\
    storage self' = Some (Np s') /\
    discharge self' = Some (Np d') /\
    get_value "discharge" (self', [nan]) =
      ((self', [(d' / value (Np 86400 / int 24 / int 3600)%num)%float]),
       Ok [(d' / value (Np 86400 / int 24 / int 3600)%num)%float]).
Proof.
  apply (X19_numpy_after_step demo_model 0 3 demo_forcing (int 0)
           (Np (10 / 86400)) (Py (1 / 10)) (Np 86400) [nan]);
    vm_compute; reflexivity.
Defined.

